(** * UX-Survey: text-to-survey parser, scoring formulas, aggregation and
      the status / submission writes, embedded from
      [src/app/create/page.tsx] (which also holds the TakeSurvey page),
      with the step navigation, the cleaning of generated content and the
      labelling of answers of the same file, and the submission of the
      respond page.

    Conventions of the embedding.
    - A JavaScript string is a [string]: each [ascii] is one UTF-16 code unit
      below 256.  White space, case mapping and comparison are the ECMAScript
      ones restricted to that range.
    - A JavaScript number is a [num]: an exact rational or [NaN].  Rounding of
      IEEE doubles is not modelled.
    - A plain object used as a dictionary is an ordered list of own
      properties.  A property read [o[k]] also sees the members inherited
      from [Object.prototype], and an assignment [o[k] = v] to the key
      "__proto__" runs the inherited setter instead of creating a
      property. *)

From Stdlib Require Import List String Ascii Bool Arith ZArith QArith Lia.
From Stdlib Require Import DecimalString DecimalNat Lqa.
Import ListNotations.

Set Implicit Arguments.
Close Scope Q_scope.

(** ** Exceptions *)

Inductive Result (A : Type) : Type :=
| Ok (a : A)
| Throw (msg : string).
Arguments Ok {A} a.
Arguments Throw {A} msg.

Definition bind {A B : Type} (r : Result A) (k : A -> Result B) : Result B :=
  match r with
  | Ok a => k a
  | Throw m => Throw m
  end.

Notation "x <- r ;; k" := (bind r (fun x => k))
  (at level 61, r at next level, right associativity).

Fixpoint foldM {A B : Type} (f : A -> B -> Result A) (l : list B) (a : A)
  : Result A :=
  match l with
  | [] => Ok a
  | b :: l' => a' <- f a b ;; foldM f l' a'
  end.

(** ** String primitives *)

Module JsString.
Local Open Scope string_scope.
Local Open Scope bool_scope.
Local Open Scope nat_scope.

Definition LF : ascii := "010"%char.

(** WhiteSpace and LineTerminator code units below 256: TAB, LF, VT, FF, CR,
    SP and NBSP.  This is the class of [\s] and what [trim] removes. *)
Definition isWhiteSpace (c : ascii) : bool :=
  let n := nat_of_ascii c in
  ((9 <=? n) && (n <=? 13)) || (n =? 32) || (n =? 160).

(** [\d] *)
Definition isDigit (c : ascii) : bool :=
  let n := nat_of_ascii c in (48 <=? n) && (n <=? 57).

Definition toLowerChar (c : ascii) : ascii :=
  let n := nat_of_ascii c in
  if ((65 <=? n) && (n <=? 90))
     || ((192 <=? n) && (n <=? 222) && negb (n =? 215))
  then ascii_of_nat (n + 32) else c.

Fixpoint toLowerCase (s : string) : string :=
  match s with
  | EmptyString => EmptyString
  | String c r => String (toLowerChar c) (toLowerCase r)
  end.

Fixpoint dropWhile (p : ascii -> bool) (s : string) : string :=
  match s with
  | EmptyString => EmptyString
  | String c r => if p c then dropWhile p r else s
  end.

Definition trimStart (s : string) : string := dropWhile isWhiteSpace s.

Fixpoint trimEnd (s : string) : string :=
  match s with
  | EmptyString => EmptyString
  | String c r =>
      match trimEnd r with
      | EmptyString => if isWhiteSpace c then EmptyString else String c EmptyString
      | r' => String c r'
      end
  end.

Definition trim (s : string) : string := trimEnd (trimStart s).

(** [s.split(sep)] for a one-character separator. *)
Fixpoint split (sep : ascii) (s : string) : list string :=
  match s with
  | EmptyString => [EmptyString]
  | String c r =>
      if Ascii.eqb c sep then EmptyString :: split sep r
      else match split sep r with
           | h :: t => String c h :: t
           | [] => [String c EmptyString]
           end
  end.

Fixpoint startsWith (s p : string) : bool :=
  match p with
  | EmptyString => true
  | String a p' =>
      match s with
      | EmptyString => false
      | String c s' => Ascii.eqb a c && startsWith s' p'
      end
  end.

Fixpoint includes (s p : string) : bool :=
  startsWith s p
  || match s with
     | EmptyString => false
     | String _ r => includes r p
     end.

(** Truthiness of a string. *)
Definition truthy (s : string) : bool := negb (String.eqb s "").

(** [s1 <= s2] and [s1 >= s2] on strings: code-unit lexicographic order. *)
Definition le (s1 s2 : string) : bool := String.leb s1 s2.
Definition ge (s1 s2 : string) : bool := String.leb s2 s1.

(** Canonicalisation of a code unit under the flag [i]: below 256 only the
    ASCII letters are identified with each other. *)
Definition foldCase (x : ascii) : ascii :=
  let n := nat_of_ascii x in
  if (65 <=? n) && (n <=? 90) then ascii_of_nat (n + 32) else x.

Fixpoint foldCaseAll (s : string) : string :=
  match s with
  | EmptyString => EmptyString
  | String c r => String (foldCase c) (foldCaseAll r)
  end.

(** Case-insensitive match of a literal at the start of [s]; returns the
    rest. *)
Fixpoint stripPrefixCI (p s : string) : option string :=
  match p with
  | EmptyString => Some s
  | String a p' =>
      match s with
      | EmptyString => None
      | String c s' =>
          if Ascii.eqb (foldCase a) (foldCase c) then stripPrefixCI p' s' else None
      end
  end.

Fixpoint firstSome {A : Type} (l : list (option A)) : option A :=
  match l with
  | [] => None
  | Some a :: _ => Some a
  | None :: l' => firstSome l'
  end.

(** [s.replace(/^(Title|Survey|#):\s*/i, '')]: the alternatives are tried in
    order, each followed by the colon, then the white space is consumed. *)
Definition titleLabels : list string := ["Title"; "Survey"; "#"].

Definition replaceTitleLabel (s : string) : string :=
  match firstSome (map (fun lbl => stripPrefixCI (lbl ++ ":") s) titleLabels) with
  | Some r => dropWhile isWhiteSpace r
  | None => s
  end.

(** [lbl] is one of the three labels, in any letter case. *)
Definition isLabel (lbl : string) : bool :=
  existsb (fun p => String.eqb (foldCaseAll lbl) (foldCaseAll p)) titleLabels.

(** The match of [/^\d+[\.\)]/]: the rest after the marker, if any. *)
Definition matchNumbering (s : string) : option string :=
  match s with
  | String c _ =>
      if isDigit c then
        match dropWhile isDigit s with
        | String m r => if Ascii.eqb m "." || Ascii.eqb m ")" then Some r else None
        | EmptyString => None
        end
      else None
  | EmptyString => None
  end.

(** [/^\d+[\.\)]/.test(s)] *)
Definition testNumbering (s : string) : bool :=
  match matchNumbering s with Some _ => true | None => false end.

(** [s.replace(/^\d+[\.\)]\s*/, '')] *)
Definition replaceNumbering (s : string) : string :=
  match matchNumbering s with
  | Some r => dropWhile isWhiteSpace r
  | None => s
  end.

(** [s.replace(/^[-*]\s*/, '')] *)
Definition replaceBullet (s : string) : string :=
  match s with
  | String c r =>
      if Ascii.eqb c "-" || Ascii.eqb c "*" then dropWhile isWhiteSpace r else s
  | EmptyString => s
  end.

(** Rendering of an array length or of a small index, in a template
    literal or as a property key: a non-negative integer below 2^32, which
    JavaScript prints in plain decimal.  The program renders no other
    number; beyond 2^53 a JavaScript number no longer holds every integer,
    and from 10^21 on it is printed with an exponent. *)
Definition ofNat (n : nat) : string := NilEmpty.string_of_uint (Nat.to_uint n).

(** [l.join("\n")], used to write multi-line inputs. *)
Fixpoint joinLines (l : list string) : string :=
  match l with
  | [] => EmptyString
  | [s] => s
  | s :: l' => s ++ String LF (joinLines l')
  end.

End JsString.

(** ** Text-to-survey parser *)

Module Parser.
Import JsString.
Local Open Scope string_scope.
Local Open Scope bool_scope.

Inductive QuestionType := multiple_choice | text | rating | yes_no.

Record Question := mkQuestion {
  q_id : string;
  q_text : string;
  q_type : QuestionType;
  q_options : option (list string)
}.

Record Survey := mkSurvey {
  title : string;
  description : string;
  questions : list Question
}.

(** Loop state: the [questions] array and [currentQuestion]; [None] is the
    empty object [{}]. *)
Record State := mkState {
  st_questions : list Question;
  currentQuestion : option Question
}.

(** [currentQuestion.text] used as a condition. *)
Definition hasText (cur : option Question) : bool :=
  match cur with
  | Some q => truthy (q_text q)
  | None => false
  end.

(** [if (currentQuestion.text) questions.push(currentQuestion)] *)
Definition flush (st : State) : list Question :=
  match currentQuestion st with
  | Some q => if truthy (q_text q) then (st_questions st ++ [q])%list
              else st_questions st
  | None => st_questions st
  end.

(** The keyword cascade on the lowercased line; [None] leaves the default. *)
Definition inferType (questionText : string) : option (QuestionType * option (list string)) :=
  if includes questionText "rate"
     || includes questionText "scale"
     || includes questionText "satisfaction"
     || includes questionText "how satisfied"
  then Some (rating, None)
  else if includes questionText "do you agree"
     || includes questionText "would you agree"
     || includes questionText "is it true"
     || (includes questionText "yes" && includes questionText "no")
  then Some (yes_no, None)
  else if includes questionText "select"
     || includes questionText "choose"
     || includes questionText "which"
     || includes questionText "pick"
  then Some (multiple_choice, Some [])
  else if includes questionText "explain"
     || includes questionText "describe"
     || includes questionText "what"
     || includes questionText "how"
     || includes questionText "why"
  then Some (text, None)
  else None.

Definition startQuestion (qs : list Question) (line : string) : Question :=
  let q := {| q_id := "q" ++ ofNat (List.length qs + 1);
              q_text := replaceNumbering line;
              q_type := text;
              q_options := None |} in
  match inferType (toLowerCase line) with
  | Some (t, None) => {| q_id := q_id q; q_text := q_text q; q_type := t;
                         q_options := q_options q |}
  | Some (t, Some o) => {| q_id := q_id q; q_text := q_text q; q_type := t;
                           q_options := Some o |}
  | None => q
  end.

(** [line.startsWith('-') || line.startsWith('*')] *)
Definition isBullet (line : string) : bool :=
  startsWith line "-" || startsWith line "*".

(** One iteration of the [for] loop body on [lines[i]]. *)
Definition step (st : State) (raw : string) : Result State :=
  let line := trim raw in
  if negb (truthy line) then Ok st
  else if testNumbering line then
    let qs := flush st in
    Ok {| st_questions := qs; currentQuestion := Some (startQuestion qs line) |}
  else if isBullet line && hasText (currentQuestion st) then
    match currentQuestion st with
    | None => Throw "TypeError"
    | Some q =>
        let q1 := match q_options q with
                  | None => {| q_id := q_id q; q_text := q_text q;
                               q_type := multiple_choice; q_options := Some [] |}
                  | Some _ => q
                  end in
        match q_options q1 with
        | None => Throw "TypeError"
        | Some o =>
            Ok {| st_questions := st_questions st;
                  currentQuestion :=
                    Some {| q_id := q_id q1; q_text := q_text q1; q_type := q_type q1;
                            q_options := Some (o ++ [trim (replaceBullet line)])%list |} |}
        end
    end
  else Ok st.

(** [for (let i = 2; i < lines.length; i++)]: [n] iterations remain. *)
Fixpoint forLoop (lines : list string) (i n : nat) (st : State) : Result State :=
  match n with
  | O => Ok st
  | S n' =>
      match nth_error lines i with
      | None => Throw "TypeError"
      | Some raw => st' <- step st raw ;; forLoop lines (S i) n' st'
      end
  end.

Definition placeholder : Question :=
  {| q_id := "q1"; q_text := "No questions were found in the response";
     q_type := text; q_options := None |}.

(** [line => line.trim()] as a condition. *)
Definition nonBlank (line : string) : bool := truthy (trim line).

(** [text.split('\n').filter(line => line.trim())] *)
Definition nonBlankLines (input : string) : list string :=
  filter nonBlank (split LF input).

(** What follows the first [n] non-blank lines, blank lines kept. *)
Fixpoint afterNonBlank (lines : list string) (n : nat) : list string :=
  match lines with
  | [] => []
  | l :: r =>
      match n with
      | O => lines
      | S n' => if nonBlank l then afterNonBlank r n' else afterNonBlank r n
      end
  end.

Definition orDefault (s : option string) (d : string) : string :=
  match s with
  | Some v => if truthy v then v else d
  | None => d
  end.

Definition parseTitle (lines : list string) : string :=
  orDefault (option_map (fun l => trim (replaceTitleLabel l)) (nth_error lines 0))
            "Untitled Survey".

Definition parseDescription (lines : list string) : string :=
  orDefault (option_map trim (nth_error lines 1)) "No description provided".

(** [questions = []; currentQuestion = {}] *)
Definition initialState : State :=
  {| st_questions := []; currentQuestion := None |}.

(** The questions array after the loop and the final flush. *)
Definition parseQuestions (lines : list string) : Result (list Question) :=
  st <- forLoop lines 2 (List.length lines - 2) initialState ;;
  Ok (flush st).

(** The same scan run over a given sequence of lines, first to last. *)
Definition scanLines (lines : list string) : Result (list Question) :=
  st <- foldM step lines initialState ;; Ok (flush st).

Definition convertTextToSurvey (input : string) : Result Survey :=
  let lines := nonBlankLines input in
  qs <- parseQuestions lines ;;
  Ok {| title := parseTitle lines;
        description := parseDescription lines;
        questions := match qs with [] => [placeholder] | _ => qs end |}.

(** The identifiers of [qs] are q1, q2, ... in order. *)
Definition sequentialIds (qs : list Question) : Prop :=
  map q_id qs = map (fun i => "q" ++ ofNat i) (seq 1 (List.length qs)).

(** What the loop maintains: the pushed questions are numbered in order and
    the current one bears the next number. *)
Definition idInvariant (st : State) : Prop :=
  sequentialIds (st_questions st)
  /\ forall q, currentQuestion st = Some q ->
               q_id q = "q" ++ ofNat (List.length (st_questions st) + 1).

(** The question scan as the specification words it: blank lines are kept
    in the scanned sequence, which starts at the third line of the input. *)
Definition describedQuestions (input : string) : Result (list Question) :=
  scanLines (skipn 2 (split LF input)).

(** The title as the specification words it: the first non-blank line with
    a leading [Title:], [Survey:] or [#] (any case) stripped. *)
Definition describedTitle (input : string) : string :=
  match nth_error (nonBlankLines input) 0 with
  | Some l =>
      match firstSome (map (fun lbl => stripPrefixCI lbl l) ["Title:"; "Survey:"; "#"]) with
      | Some r => trimStart r
      | None => l
      end
  | None => "Untitled Survey"
  end.

(** The description as the specification words it: the second non-blank
    line verbatim. *)
Definition describedDescription (input : string) : string :=
  match nth_error (nonBlankLines input) 1 with
  | Some l => l
  | None => "No description provided"
  end.

Definition sampleInput : string :=
  joinLines ["Title: T"; "Desc"; "1. What is your name?"; "2. Rate our service";
             "- a"; "- b"].

End Parser.

(** ** Numbers *)

Module JsNumber.
Import JsString.
Local Open Scope bool_scope.

(** A number: an exact rational or [NaN]. *)
Inductive num := NaN | Fin (q : Q).

(** Result of an arithmetic expression.  JavaScript's [/] yields [NaN] or an
    infinity on a zero divisor; the embedding records that event as its own
    outcome instead of modelling infinities. *)
Inductive Outcome := Value (v : num) | DivisionByZero.

Definition ofZ (z : Z) : num := Fin (inject_Z z).
Definition ofLength (n : nat) : num := ofZ (Z.of_nat n).

Definition lift2 (f : Q -> Q -> Q) (a b : num) : num :=
  match a, b with
  | Fin x, Fin y => Fin (f x y)
  | _, _ => NaN
  end.

Definition add := lift2 Qplus.
Definition sub := lift2 Qminus.
Definition mul := lift2 Qmult.

(** [a / b] *)
Definition div (a b : num) : Outcome :=
  match b with
  | Fin y => if Qeq_bool y 0 then DivisionByZero else Value (lift2 Qdiv a b)
  | NaN => Value NaN
  end.

(** Comparisons; any comparison with [NaN] is false. *)
Definition geb (a b : num) : bool :=
  match a, b with Fin x, Fin y => Qle_bool y x | _, _ => false end.
Definition leb (a b : num) : bool :=
  match a, b with Fin x, Fin y => Qle_bool x y | _, _ => false end.
Definition eqb (a b : num) : bool :=
  match a, b with Fin x, Fin y => Qeq_bool x y | _, _ => false end.

(** Equality of numbers up to the representation of the rational. *)
Definition same (a b : num) : Prop :=
  match a, b with
  | Fin x, Fin y => Qeq x y
  | NaN, NaN => True
  | _, _ => False
  end.

Definition digitValue (radix : Z) (c : ascii) : option Z :=
  let n := Z.of_nat (nat_of_ascii c) in
  let v := if (48 <=? n)%Z && (n <=? 57)%Z then (n - 48)%Z
           else if (97 <=? n)%Z && (n <=? 122)%Z then (n - 87)%Z
           else if (65 <=? n)%Z && (n <=? 90)%Z then (n - 55)%Z
           else radix in
  if (v <? radix)%Z then Some v else None.

(** Value of the longest prefix of digits of the radix; [None] if empty. *)
Fixpoint digitsPrefix (radix : Z) (acc : option Z) (s : string) : option Z :=
  match s with
  | EmptyString => acc
  | String c r =>
      match digitValue radix c with
      | Some d =>
          digitsPrefix radix
            (Some (match acc with Some a => a * radix + d | None => d end)%Z) r
      | None => acc
      end
  end.

(** [parseInt(s)] with no radix argument. *)
Definition parseInt (s : string) : num :=
  let s0 := trimStart s in
  let '(sign, s1) :=
    match s0 with
    | String "-" r => ((-1)%Z, r)
    | String "+" r => (1%Z, r)
    | _ => (1%Z, s0)
    end in
  let '(radix, s2) :=
    match s1 with
    | String "0" (String "x" r) => (16%Z, r)
    | String "0" (String "X" r) => (16%Z, r)
    | _ => (10%Z, s1)
    end in
  match digitsPrefix radix None s2 with
  | Some z => ofZ (sign * z)
  | None => NaN
  end.

End JsNumber.

(** ** Scoring formulas ([SURVEY_TYPES]) *)

Module Scoring.
Import JsString JsNumber.
Local Open Scope string_scope.
Local Open Scope bool_scope.

Record SurveyAnswer := mkAnswer {
  question_id : string;
  response : string
}.

Record SurveyResponseData := mkResponse {
  r_id : string;
  created_at : string;
  answers : list SurveyAnswer
}.

Definition bindO (o : Outcome) (k : num -> Outcome) : Outcome :=
  match o with
  | Value v => k v
  | DivisionByZero => DivisionByZero
  end.

(** [l.reduce((sum, score) => sum + score, 0)] *)
Definition sum (l : list num) : num := fold_left add l (ofZ 0).

(** [responses.flatMap(r => r.answers.filter(keep).map(conv))] *)
Definition collect {A : Type} (keep : SurveyAnswer -> bool) (conv : SurveyAnswer -> A)
  (responses : list SurveyResponseData) : list A :=
  flat_map (fun r => map conv (filter keep (answers r))) responses.

(** The three range filters compare strings with strings. *)
Definition inRange (lo hi : string) (a : SurveyAnswer) : bool :=
  ge (response a) lo && JsString.le (response a) hi.

Definition npsScores (responses : list SurveyResponseData) : list num :=
  collect (inRange "0" "10") (fun a => parseInt (response a)) responses.

Definition nps (responses : list SurveyResponseData) : Outcome :=
  let scores := npsScores responses in
  if Nat.eqb (List.length scores) 0 then Value (ofZ 0)
  else
    let promoters := List.length (filter (fun score => geb score (ofZ 9)) scores) in
    let detractors := List.length (filter (fun score => JsNumber.leb score (ofZ 6)) scores) in
    bindO (div (ofLength promoters) (ofLength (List.length scores))) (fun p =>
    bindO (div (ofLength detractors) (ofLength (List.length scores))) (fun d =>
    Value (mul (sub p d) (ofZ 100)))).

(** The [forEach] over one response's answers, starting at [index]. *)
Fixpoint susTotal (l : list SurveyAnswer) (index : nat) (totalScore : num) : num :=
  match l with
  | [] => totalScore
  | answer :: l' =>
      let score := parseInt (response answer) in
      susTotal l' (S index)
        (if Nat.eqb (index mod 2) 0
         then add totalScore (sub score (ofZ 1))
         else add totalScore (sub (ofZ 5) score))
  end.

Definition susScores (responses : list SurveyResponseData) : list num :=
  map (fun r => susTotal (answers r) 0 (ofZ 0)) responses.

Definition sus (responses : list SurveyResponseData) : Outcome :=
  let scores := susScores responses in
  if Nat.eqb (List.length scores) 0 then Value (ofZ 0)
  else
    bindO (div (sum scores) (ofLength (List.length scores))) (fun averageScore =>
    Value (mul averageScore (Fin (5 # 2)))).

Definition csatScores (responses : list SurveyResponseData) : list num :=
  collect (inRange "1" "5") (fun a => parseInt (response a)) responses.

Definition csat (responses : list SurveyResponseData) : Outcome :=
  let satisfactionScores := csatScores responses in
  if Nat.eqb (List.length satisfactionScores) 0 then Value (ofZ 0)
  else
    bindO (div (sum satisfactionScores) (ofLength (List.length satisfactionScores)))
      (fun averageScore => Value (mul averageScore (ofZ 20))).

Definition cesScores (responses : list SurveyResponseData) : list num :=
  collect (inRange "1" "7") (fun a => parseInt (response a)) responses.

Definition ces (responses : list SurveyResponseData) : Outcome :=
  let effortScores := cesScores responses in
  if Nat.ltb 0 (List.length effortScores)
  then div (sum effortScores) (ofLength (List.length effortScores))
  else Value (ofZ 0).

Definition tsmScores (responses : list SurveyResponseData) : list num :=
  collect
    (fun a => String.eqb (toLowerCase (response a)) "success"
              || String.eqb (toLowerCase (response a)) "failure")
    (fun a => if String.eqb (toLowerCase (response a)) "success" then ofZ 1 else ofZ 0)
    responses.

Definition tsm (responses : list SurveyResponseData) : Outcome :=
  let taskScores := tsmScores responses in
  if Nat.eqb (List.length taskScores) 0 then Value (ofZ 0)
  else
    let successfulTasks := List.length (filter (fun score => eqb score (ofZ 1)) taskScores) in
    bindO (div (ofLength successfulTasks) (ofLength (List.length taskScores)))
      (fun ratio => Value (mul ratio (ofZ 100))).

(** One response per score, as the respond page stores them. *)
Definition ofValues (l : list string) : list SurveyResponseData :=
  map (fun v => {| r_id := ""; created_at := "";
                   answers := [{| question_id := "q1"; response := v |}] |}) l.

(** The reference definition of the NPS table row: the filter keeps the
    answers whose numeric value lies in [0,10]. *)
Definition npsReference (responses : list SurveyResponseData) : Outcome :=
  let scores :=
    collect (fun a => geb (parseInt (response a)) (ofZ 0)
                      && JsNumber.leb (parseInt (response a)) (ofZ 10))
            (fun a => parseInt (response a)) responses in
  if Nat.eqb (List.length scores) 0 then Value (ofZ 0)
  else
    let promoters := List.length (filter (fun score => geb score (ofZ 9)) scores) in
    let detractors := List.length (filter (fun score => JsNumber.leb score (ofZ 6)) scores) in
    bindO (div (ofLength promoters) (ofLength (List.length scores))) (fun p =>
    bindO (div (ofLength detractors) (ofLength (List.length scores))) (fun d =>
    Value (mul (sub p d) (ofZ 100)))).

End Scoring.

(** ** Plain objects used as dictionaries *)

Module JsObject.
Import JsString.
Local Open Scope bool_scope.

(** Own properties in the order [Object.entries] lists them: array-index
    keys in ascending numeric order, then the other keys in creation order. *)
Definition obj (V : Type) := list (string * V).

Fixpoint digitsValue (acc : N) (s : string) : option N :=
  match s with
  | EmptyString => Some acc
  | String c r =>
      if isDigit c
      then digitsValue (acc * 10 + N.of_nat (nat_of_ascii c - 48)) r
      else None
  end.

Definition ofN (n : N) : string := NilEmpty.string_of_uint (N.to_uint n).

(** An array index is the canonical decimal form of an integer in
    [0, 2^32 - 2]. *)
Definition arrayIndex (k : string) : option N :=
  match k with
  | EmptyString => None
  | _ =>
      match digitsValue 0 k with
      | Some n => if String.eqb (ofN n) k && (n <=? 4294967294)%N then Some n else None
      | None => None
      end
  end.

(** The names of the members a plain object inherits from
    [Object.prototype]. *)
Definition protoMembers : list string :=
  ["constructor"; "__defineGetter__"; "__defineSetter__"; "hasOwnProperty";
   "__lookupGetter__"; "__lookupSetter__"; "isPrototypeOf";
   "propertyIsEnumerable"; "toString"; "valueOf"; "__proto__";
   "toLocaleString"]%string.

Definition isProtoMember (k : string) : bool :=
  existsb (String.eqb k) protoMembers.

(** What a property read finds: an own property, a member inherited from
    [Object.prototype] (a function, or the prototype itself under
    "__proto__"), or [undefined]. *)
Inductive Read (V : Type) : Type :=
| Own (v : V)
| Inherited (member : string)
| Undefined.
Arguments Own {V} v.
Arguments Inherited {V} member.
Arguments Undefined {V}.

Section Ops.
Variable V : Type.

(** The own property [k] of [o], as [Object.entries], the spread and
    [hasOwnProperty] see it; [None] when [o] has no such own property. *)
Fixpoint get (o : obj V) (k : string) : option V :=
  match o with
  | [] => None
  | (k', v) :: o' => if String.eqb k' k then Some v else get o' k
  end.

Fixpoint replace (o : obj V) (k : string) (v : V) : obj V :=
  match o with
  | [] => []
  | (k', v') :: o' =>
      if String.eqb k' k then (k', v) :: o' else (k', v') :: replace o' k v
  end.

Fixpoint insertIndex (n : N) (k : string) (v : V) (o : obj V) : obj V :=
  match o with
  | [] => [(k, v)]
  | (k', v') :: o' =>
      match arrayIndex k' with
      | Some n' => if (n' <? n)%N then (k', v') :: insertIndex n k v o'
                   else (k, v) :: o
      | None => (k, v) :: o
      end
  end.

(** The own property [k] is defined or overwritten: what
    [{ ...o, [k]: v }] does for every name, and what [o[k] = v] does for
    every name but "__proto__". *)
Definition set (o : obj V) (k : string) (v : V) : obj V :=
  match get o k with
  | Some _ => replace o k v
  | None =>
      match arrayIndex k with
      | Some n => insertIndex n k v o
      | None => (o ++ [(k, v)])%list
      end
  end.

(** [o[k]] on a plain object: the own property, else the member of
    [Object.prototype] of that name, else [undefined]. *)
Definition read (o : obj V) (k : string) : Read V :=
  match get o k with
  | Some v => Own v
  | None => if isProtoMember k then Inherited k else Undefined
  end.

(** [o[k] = v] for a primitive [v] (a number or a string): an own property
    is overwritten; otherwise the key "__proto__" reaches the setter of
    [Object.prototype], which ignores a primitive and leaves [o] as it is;
    any other key becomes a new own property. *)
Definition assign (o : obj V) (k : string) (v : V) : obj V :=
  match get o k with
  | Some _ => replace o k v
  | None => if String.eqb k "__proto__" then o else set o k v
  end.

(** [Object.entries(o)] *)
Definition entries (o : obj V) : list (string * V) := o.


End Ops.

End JsObject.

(** ** Response aggregation *)

Module Aggregator.
Import JsString Parser Scoring JsObject.
Local Open Scope string_scope.
Local Open Scope bool_scope.

(** What a tally holds under a label.  [Count n] is the number [n].
    [Text member k] is the string the code builds when the label names a
    member of [Object.prototype]: the text of that member followed by [k]
    characters "1". *)
Inductive TallyValue :=
| Count (n : nat)
| Text (member : string) (ones : nat).

Coercion Count : nat >-> TallyValue.

Record DataPoint := mkPoint { name : string; value : TallyValue }.

Record Aggregate := mkAggregate {
  data : list DataPoint;
  responses : option (list string)
}.

(** [responses.flatMap(r => r.answers.filter(a => a.question_id === question.id))] *)
Definition questionResponses (rs : list SurveyResponseData) (question : Question)
  : list SurveyAnswer :=
  flat_map (fun r => filter (fun a => String.eqb (question_id a) (q_id question))
                            (answers r)) rs.

(** [(current || 0) + 1]: a number counts up, [0] and [undefined] count
    from zero; an inherited member and a text are truthy, and [+ 1] appends
    the character "1" to their text. *)
Definition plusOne (current : Read TallyValue) : TallyValue :=
  match current with
  | Own (Count n) => Count ((if Nat.eqb n 0 then 0 else n) + 1)
  | Own (Text member ones) => Text member (ones + 1)
  | Inherited member => Text member 1
  | Undefined => Count (0 + 1)
  end.

(** [aggregatedData[key] = (aggregatedData[key] || 0) + 1] *)
Definition increment (aggregatedData : obj TallyValue) (key : string)
  : obj TallyValue :=
  assign aggregatedData key (plusOne (read aggregatedData key)).

Definition tally (init : obj TallyValue) (l : list SurveyAnswer) : obj TallyValue :=
  fold_left (fun acc answer => increment acc (response answer)) l init.

(** [Array.from({ length: 5 }, (_, i) => i + 1)
      .reduce((acc, rating) => ({ ...acc, [rating]: 0 }), {})] *)
Definition seedRatings : obj TallyValue :=
  fold_left (fun acc rating => set acc (ofNat rating) (Count 0))
            (map (fun i => i + 1) (seq 0 5)) [].

Definition toData (aggregatedData : obj TallyValue) : list DataPoint :=
  map (fun e => {| name := fst e; value := snd e |}) (entries aggregatedData).

(** The [switch] on the question type. *)
Definition aggregateQuestion (rs : list SurveyResponseData) (question : Question)
  : option Aggregate :=
  let qr := questionResponses rs question in
  match q_type question with
  | multiple_choice | yes_no =>
      Some {| data := toData (tally [] qr); responses := None |}
  | rating =>
      Some {| data := toData (tally seedRatings qr); responses := None |}
  | text =>
      Some {| data := []; responses := Some (map response qr) |}
  end.

(** The object [result]: its own properties, and the aggregate that has
    become its prototype, if one has ([None]: still [Object.prototype]). *)
Record Aggregates := mkAggregates {
  own : obj Aggregate;
  prototype : option Aggregate
}.

(** [result[id] = aggregate]: the key "__proto__" reaches the inherited
    setter, which makes the aggregate the prototype of [result] and creates
    no property; any other key is overwritten or created. *)
Definition store (result : Aggregates) (id : string) (a : Aggregate) : Aggregates :=
  if String.eqb id "__proto__"
  then {| own := own result; prototype := Some a |}
  else {| own := set (own result) id a; prototype := prototype result |}.

Definition aggregateResponses (rs : list SurveyResponseData) (qs : list Question)
  : Aggregates :=
  fold_left (fun result question =>
               match aggregateQuestion rs question with
               | Some a => store result (q_id question) a
               | None => result
               end) qs {| own := []; prototype := None |}.



Definition ratingLabels : list string := ["1"; "2"; "3"; "4"; "5"].

(** The value listed for [label], read off the output pairs. *)
Definition countOf (label : string) (d : list DataPoint) : option TallyValue :=
  option_map value (find (fun p => String.eqb (name p) label) d).

(** Number of answers whose response string is [label]. *)
Definition occurrences (label : string) (l : list SurveyAnswer) : nat :=
  List.length (filter (fun a => String.eqb (response a) label) l).

(** The number a listed value stands for; a text stands for none. *)
Definition numeric (v : TallyValue) : nat :=
  match v with
  | Count n => n
  | Text _ _ => 0
  end.

End Aggregator.

(** ** Writes to the persistence service *)

Module Persistence.
Import Parser JsNumber.
Local Open Scope string_scope.

(** The value of an answer: the string or the number the respondent
    entered, or, where the code reads it off an object under a key that
    names one, a member inherited from [Object.prototype]. *)
Inductive AnswerValue :=
| AStr (s : string)
| ANum (n : num)
| AMember (member : string).

Record Answer := mkStoredAnswer {
  a_question_id : string;
  a_response : AnswerValue
}.

Record SurveyRow := mkSurveyRow {
  row_id : string;
  row_title : string;
  row_description : string;
  row_questions : list Question;
  row_created_at : string;
  row_user_id : string;
  row_status : string
}.

Record ResponseRow := mkResponseRow {
  resp_id : string;
  resp_survey_id : string;
  resp_answers : list Answer;
  resp_created_at : string
}.

Inductive Write :=
| InsertSurvey (row : SurveyRow)
| UpdateStatus (id : string) (status : string)
| InsertResponse (row : ResponseRow).

(** The status a write stores, if it stores one. *)
Definition writtenStatus (w : Write) : option string :=
  match w with
  | InsertSurvey row => Some (row_status row)
  | UpdateStatus _ status => Some status
  | InsertResponse _ => None
  end.

Definition isStatus (s : string) : bool :=
  String.eqb s "draft" || String.eqb s "live".

End Persistence.

(** ** The create page's handlers *)

Module CreateSurvey.
Import Parser Persistence.
Local Open Scope string_scope.
Local Open Scope bool_scope.

(** [handleSubmit]: [uuid] and [now] stand for [uuidv4()] and the clock. *)
Definition handleSubmit (parsedSurvey : option Survey) (isVerified : bool)
  (uuid now : string) : list Write :=
  match parsedSurvey with
  | None => []
  | Some s =>
      if negb isVerified then []
      else [InsertSurvey {| row_id := uuid;
                            row_title := title s;
                            row_description := description s;
                            row_questions := questions s;
                            row_created_at := now;
                            row_user_id := "anonymous";
                            row_status := "draft" |}]
  end.

Definition setLive (savedSurveyId : option string) : list Write :=
  match savedSurveyId with
  | None => []
  | Some id => if JsString.truthy id then [UpdateStatus id "live"] else []
  end.

Definition toggleSurveyStatus (surveyId currentStatus : string) : list Write :=
  let newStatus := if String.eqb currentStatus "live" then "draft" else "live" in
  [UpdateStatus surveyId newStatus].

(** [duplicateSurvey], once the original row has been fetched. *)
Definition duplicateSurvey (originalSurvey : SurveyRow) (uuid now : string) : list Write :=
  [InsertSurvey {| row_id := uuid;
                   row_title := row_title originalSurvey ++ " (Copy)";
                   row_description := row_description originalSurvey;
                   row_questions := row_questions originalSurvey;
                   row_created_at := now;
                   row_user_id := row_user_id originalSurvey;
                   row_status := "draft" |}].

End CreateSurvey.

(** ** The TakeSurvey page's handlers *)

Module TakeSurvey.
Import Parser Persistence JsNumber JsObject.
Local Open Scope string_scope.
Local Open Scope bool_scope.

(** The survey as this page loads it. *)
Record Survey := mkLoaded {
  s_id : string;
  s_questions : list Question
}.

(** [value || ''] on what [answers[question.id]] finds: the empty string,
    zero, [NaN] and [undefined] give way to [''], an inherited member is
    truthy and stays. *)
Definition orEmpty (v : Read AnswerValue) : AnswerValue :=
  match v with
  | Undefined => AStr ""
  | Inherited member => AMember member
  | Own (AStr s) => if JsString.truthy s then AStr s else AStr ""
  | Own (ANum NaN) => AStr ""
  | Own (ANum (Fin q)) => if Qeq_bool q 0 then AStr "" else ANum (Fin q)
  | Own (AMember member) => AMember member
  end.

(** [handleAnswerChange]: [{ ...prev, [questionId]: value }] *)
Definition handleAnswerChange (prev : obj AnswerValue) (questionId : string)
  (v : AnswerValue) : obj AnswerValue :=
  set prev questionId v.

Definition formatAnswers (survey : Survey) (answers : obj AnswerValue) : list Answer :=
  map (fun question => {| a_question_id := q_id question;
                          a_response := orEmpty (read answers (q_id question)) |})
      (s_questions survey).

Definition handleSubmit (survey : option Survey) (answers : obj AnswerValue)
  (uuid now : string) : list Write :=
  match survey with
  | None => []
  | Some s => [InsertResponse {| resp_id := uuid;
                                 resp_survey_id := s_id s;
                                 resp_answers := formatAnswers s answers;
                                 resp_created_at := now |}]
  end.

Definition handleSave (survey : option Survey) : list Write :=
  match survey with
  | None => []
  | Some s => [UpdateStatus (s_id s) "saved"]
  end.

(** The answers object after a sequence of changes, starting from [{}]. *)
Definition afterChanges (changes : list (string * AnswerValue)) : obj AnswerValue :=
  fold_left (fun acc c => handleAnswerChange acc (fst c) (snd c)) changes [].

End TakeSurvey.

(** ** The respond page's submission *)

Module RespondToSurvey.
Import JsString JsObject Scoring.
Local Open Scope string_scope.

(** [handleAnswerChange]: [{ ...prev, [questionId]: value }] *)
Definition handleAnswerChange (prev : obj string) (questionId value : string)
  : obj string :=
  set prev questionId value.

(** [Object.entries(answers).map(([questionId, response]) => ...)] *)
Definition formattedAnswers (answers : obj string) : list SurveyAnswer :=
  map (fun e => {| question_id := fst e; response := snd e |}) (entries answers).

(** The row handed to [insert]: it carries no id of its own. *)
Record Submission := mkSubmission {
  sub_survey_id : string;
  sub_answers : list SurveyAnswer;
  sub_created_at : string
}.

(** [handleSubmit]: [surveyId] is [survey.id], [None] when no survey is
    loaded. *)
Definition handleSubmit (surveyId : option string) (answers : obj string)
  (now : string) : option Submission :=
  match surveyId with
  | None => None
  | Some id => Some {| sub_survey_id := id;
                       sub_answers := formattedAnswers answers;
                       sub_created_at := now |}
  end.

(** The answers object after a sequence of changes, starting from [{}]. *)
Definition afterChanges (changes : list (string * string)) : obj string :=
  fold_left (fun acc c => handleAnswerChange acc (fst c) (snd c)) changes [].

(** The value last entered for a question, if any. *)
Definition lastEntered {V : Type} (changes : list (string * V)) (questionId : string)
  : option V :=
  option_map snd (find (fun c => String.eqb (fst c) questionId) (rev changes)).

End RespondToSurvey.

(** ** Cleaning of the generated content ([generateSurvey]) *)

Module GenerateSurvey.
Import JsString.
Local Open Scope string_scope.
Local Open Scope bool_scope.

Definition fence : string := "```".

(** A literal at the start of [s]; returns the rest. *)
Fixpoint stripPrefix (p s : string) : option string :=
  match p with
  | EmptyString => Some s
  | String a p' =>
      match s with
      | EmptyString => None
      | String c s' => if Ascii.eqb a c then stripPrefix p' s' else None
      end
  end.

(** [s.replace(/^```json\n?/, '')] *)
Definition replaceFenceOpen (s : string) : string :=
  match stripPrefix (fence ++ "json") s with
  | Some r =>
      match r with
      | String c r' => if Ascii.eqb c LF then r' else r
      | EmptyString => r
      end
  | None => s
  end.

(** [s.replace(/\n?```$/, '')]: the match starts at the first position
    whose remainder is the fence, with or without a line feed before it. *)
Fixpoint replaceFenceClose (s : string) : string :=
  match s with
  | EmptyString => EmptyString
  | String c r =>
      if String.eqb s (String LF fence) || String.eqb s fence then EmptyString
      else String c (replaceFenceClose r)
  end.

(** [cleanContent] as handed to [JSON.parse]. *)
Definition cleanContent (content : string) : string :=
  trim (replaceFenceClose (replaceFenceOpen content)).

End GenerateSurvey.

(** ** Step navigation of the create page *)

Module Navigation.
Import JsString Parser.
Local Open Scope string_scope.
Local Open Scope bool_scope.













End Navigation.

(** ** Data handed to the synthesis ([synthesizeResults]) *)

Module Synthesize.
Import JsString Parser Scoring.
Local Open Scope string_scope.

Record StructuredAnswer := mkStructured {
  sa_question : string;
  sa_response : string;
  sa_type : QuestionType
}.

(** One entry of [response.answers.map(answer => ...)]. *)
Definition structureAnswer (questions : list Question) (answer : SurveyAnswer)
  : StructuredAnswer :=
  let question := find (fun q => String.eqb (q_id q) (question_id answer)) questions in
  {| sa_question := match question with
                    | Some q => if truthy (q_text q) then q_text q
                                else "Unknown Question"
                    | None => "Unknown Question"
                    end;
     sa_response := response answer;
     sa_type := match question with
                | Some q => q_type q
                | None => text
                end |}.

Definition structureAnswers (questions : list Question) (r : SurveyResponseData)
  : list StructuredAnswer :=
  map (structureAnswer questions) (answers r).

End Synthesize.

(** ** Shapes the parser keeps *)

Module ParserShapes.
Import JsString Parser.
Local Open Scope string_scope.
Local Open Scope bool_scope.

(** A question carries an options array exactly when its type is
    multiple_choice. *)
Definition optionsMatchType (q : Question) : bool :=
  Bool.eqb (match q_options q with Some _ => true | None => false end)
           (match q_type q with multiple_choice => true | _ => false end).

Definition wellFormed (q : Question) : Prop :=
  truthy (q_text q) = true /\ optionsMatchType q = true.

(** What the loop maintains about shapes. *)
Definition shapeInvariant (st : State) : Prop :=
  Forall wellFormed (st_questions st)
  /\ forall q, currentQuestion st = Some q -> optionsMatchType q = true.

(** A line the scan reacts to: a numbered line or a bullet line. *)
Definition relevant (raw : string) : bool :=
  testNumbering (trim raw) || isBullet (trim raw).

(** The texts announced by the numbered lines of a body: the rest of each
    line after its marker, empty ones left out. *)
Definition numberedTexts (lines : list string) : list string :=
  filter truthy (map replaceNumbering (filter testNumbering (map trim lines))).

End ParserShapes.

(** ** Order of the listed labels *)

Module EntryOrder.
Import JsObject.

(** From [lower] on, the array-index labels come in strictly ascending
    numeric order, and after the first label that is no array index no
    array index follows. *)
Fixpoint orderedFrom (lower : option N) (labels : list string) : Prop :=
  match labels with
  | [] => True
  | k :: labels' =>
      match arrayIndex k with
      | Some n =>
          match lower with Some m => (m < n)%N | None => True end
          /\ orderedFrom (Some n) labels'
      | None => Forall (fun k' => arrayIndex k' = None) labels'
      end
  end.

(** [n] lies above the lower bound, if there is one. *)
Definition above (lower : option N) (n : N) : Prop :=
  match lower with Some m => (m < n)%N | None => True end.

(** Array-index labels first, ascending; the other labels after them. *)
Definition indexLabelsFirst (labels : list string) : Prop :=
  orderedFrom None labels.

End EntryOrder.

(** ** Totals of a tally *)

Module Totals.
Import JsObject Scoring Aggregator.

(** The sum of the counts held by a tally object. *)
Definition total (o : obj TallyValue) : nat :=
  list_sum (map (fun e => numeric (snd e)) o).

(** The answer's response names no member of [Object.prototype]. *)
Definition plain (a : SurveyAnswer) : bool :=
  negb (isProtoMember (response a)).

(** Numbers sit under the labels that name no member of
    [Object.prototype], texts under those that do. *)
Definition separated (o : obj TallyValue) : Prop :=
  Forall (fun e => match snd e with
                   | Count _ => isProtoMember (fst e) = false
                   | Text _ _ => isProtoMember (fst e) = true
                   end) o.

End Totals.

(** ** Ranges of scores *)

Module ScoreRanges.
Import JsNumber Scoring.

(** The outcome is a finite number between [lo] and [hi]. *)
Definition between (lo hi : Q) (o : Outcome) : Prop :=
  match o with
  | Value (Fin q) => (lo <= q <= hi)%Q
  | _ => False
  end.

(** All the answers of all the responses, in order. *)
Definition allAnswers (rs : list SurveyResponseData) : list SurveyAnswer :=
  flat_map answers rs.

(** A count as a rational. *)
Definition count (n : nat) : Q := inject_Z (Z.of_nat n).

(** The number is finite and lies between [lo] and [hi]. *)
Definition within (lo hi : Q) (x : num) : Prop :=
  match x with
  | Fin q => (lo <= q <= hi)%Q
  | NaN => False
  end.

(** [a.response.toLowerCase() === 'success'] and the same for failure. *)
Definition saysSuccess (a : SurveyAnswer) : bool :=
  String.eqb (JsString.toLowerCase (response a)) "success".
Definition saysFailure (a : SurveyAnswer) : bool :=
  String.eqb (JsString.toLowerCase (response a)) "failure".

(** The answer is one of the one-digit strings from "1" to the given top. *)
Definition oneToFive (a : SurveyAnswer) : Prop :=
  In (response a) ["1"; "2"; "3"; "4"; "5"]%string.
Definition oneToSeven (a : SurveyAnswer) : Prop :=
  In (response a) ["1"; "2"; "3"; "4"; "5"; "6"; "7"]%string.

End ScoreRanges.

(** * Properties *)

(** ** The parser *)

Section ParserFacts.
Import JsString Parser.
Local Open Scope string_scope.
Local Open Scope bool_scope.

Lemma skipn_nth_error (A : Type) (l : list A) (i : nat) (x : A) :
  nth_error l i = Some x -> skipn i l = x :: skipn (S i) l.
Proof.
  revert i; induction l as [|a l IH]; intros [|i] H; simpl in *; try discriminate.
  - now inversion H.
  - now apply IH.
Qed.

Lemma forLoop_foldM (lines : list string) :
  forall n i st, i + n = List.length lines ->
    forLoop lines i n st = foldM step (skipn i lines) st.
Proof.
  induction n as [|n IH]; intros i st Hlen; simpl.
  - rewrite skipn_all2 by lia. reflexivity.
  - destruct (nth_error lines i) as [raw|] eqn:E.
    + rewrite (skipn_nth_error _ _ E). simpl.
      destruct (step st raw); simpl; [apply IH; lia | reflexivity].
    + apply nth_error_None in E. lia.
Qed.

Lemma parseQuestions_scan (lines : list string) :
  parseQuestions lines = scanLines (skipn 2 lines).
Proof.
  unfold parseQuestions, scanLines.
  destruct (Nat.le_gt_cases 2 (List.length lines)) as [H|H].
  - rewrite forLoop_foldM by lia. reflexivity.
  - replace (List.length lines - 2) with 0 by lia.
    rewrite skipn_all2 by lia. reflexivity.
Qed.

Lemma isBullet_shape (line : string) :
  isBullet line = true -> truthy line = true /\ testNumbering line = false.
Proof.
  unfold isBullet, testNumbering.
  destruct line as [|c r]; [easy|]. cbn [startsWith].
  destruct (Ascii.eqb_spec "-" c) as [<-|_]; [now split|].
  destruct (Ascii.eqb_spec "*" c) as [<-|_]; [now split|].
  easy.
Qed.

Lemma step_blank (st : State) (raw : string) :
  truthy (trim raw) = false -> step st raw = Ok st.
Proof. intros H. unfold step. now rewrite H. Qed.

Lemma step_numbered (st : State) (raw : string) :
  truthy (trim raw) = true -> testNumbering (trim raw) = true ->
  step st raw = Ok {| st_questions := flush st;
                      currentQuestion := Some (startQuestion (flush st) (trim raw)) |}.
Proof. intros H1 H2. unfold step. now rewrite H1, H2. Qed.

Lemma step_bullet (st : State) (q : Question) (raw : string) :
  currentQuestion st = Some q -> truthy (q_text q) = true ->
  isBullet (trim raw) = true ->
  step st raw =
    Ok {| st_questions := st_questions st;
          currentQuestion :=
            Some {| q_id := q_id q; q_text := q_text q;
                    q_type := match q_options q with
                              | None => multiple_choice
                              | Some _ => q_type q
                              end;
                    q_options :=
                      Some (match q_options q with None => [] | Some o => o end
                            ++ [trim (replaceBullet (trim raw))])%list |} |}.
Proof.
  intros Hc Ht Hb. destruct (isBullet_shape _ Hb) as [H1 H2].
  unfold step. rewrite H1, H2, Hb, Hc. simpl. rewrite Ht. simpl.
  destruct q as [i t ty [o|]]; reflexivity.
Qed.

Lemma step_other (st : State) (raw : string) :
  testNumbering (trim raw) = false ->
  isBullet (trim raw) && hasText (currentQuestion st) = false ->
  step st raw = Ok st.
Proof.
  intros H2 H3. unfold step.
  rewrite H2, H3. now destruct (negb (truthy (trim raw))).
Qed.

(** Every iteration ends normally, in one of three ways. *)
Lemma step_cases (st : State) (raw : string) :
  step st raw = Ok st
  \/ step st raw = Ok {| st_questions := flush st;
                         currentQuestion := Some (startQuestion (flush st) (trim raw)) |}
  \/ exists q t o,
       currentQuestion st = Some q /\ truthy (q_text q) = true /\
       step st raw = Ok {| st_questions := st_questions st;
                           currentQuestion :=
                             Some {| q_id := q_id q; q_text := q_text q;
                                     q_type := t; q_options := o |} |}.
Proof.
  destruct (truthy (trim raw)) eqn:H1; [|left; now apply step_blank].
  destruct (testNumbering (trim raw)) eqn:H2;
    [right; left; now apply step_numbered|].
  destruct (isBullet (trim raw) && hasText (currentQuestion st)) eqn:H3;
    [|left; now apply step_other].
  apply andb_prop in H3 as [Hb Hh]. right; right.
  destruct (currentQuestion st) as [q|] eqn:Hc; [|discriminate]. simpl in Hh.
  eexists q, _, _. split; [reflexivity|]. split; [exact Hh|].
  now apply step_bullet.
Qed.

Lemma foldM_step_ok (lines : list string) :
  forall st, exists st', foldM step lines st = Ok st'.
Proof.
  induction lines as [|raw lines IH]; intros st; simpl; [now exists st|].
  destruct (step_cases st raw) as [H|[H|(q & t & o & _ & _ & H)]];
    rewrite H; simpl; apply IH.
Qed.

Lemma parseQuestions_ok (lines : list string) :
  exists qs, parseQuestions lines = Ok qs.
Proof.
  rewrite parseQuestions_scan. unfold scanLines.
  destruct (foldM_step_ok (skipn 2 lines) initialState) as [st H].
  rewrite H. simpl. now eexists.
Qed.

(** *** Identifiers *)

Lemma startQuestion_id (qs : list Question) (line : string) :
  q_id (startQuestion qs line) = "q" ++ ofNat (List.length qs + 1).
Proof.
  unfold startQuestion. destruct (inferType (toLowerCase line)) as [[t [o|]]|];
    reflexivity.
Qed.

Lemma startQuestion_text (qs : list Question) (line : string) :
  q_text (startQuestion qs line) = replaceNumbering line.
Proof.
  unfold startQuestion. destruct (inferType (toLowerCase line)) as [[t [o|]]|];
    reflexivity.
Qed.

Lemma sequentialIds_snoc (qs : list Question) (q : Question) :
  sequentialIds qs -> q_id q = "q" ++ ofNat (List.length qs + 1) ->
  sequentialIds (qs ++ [q]).
Proof.
  unfold sequentialIds. intros H Hq.
  rewrite length_app. cbn [List.length]. rewrite Nat.add_1_r, seq_S, !map_app, H.
  cbn [map]. rewrite Hq, Nat.add_1_r. reflexivity.
Qed.

Lemma flush_sequential (st : State) :
  idInvariant st -> sequentialIds (flush st).
Proof.
  intros [Hs Hc]. unfold flush.
  destruct (currentQuestion st) as [q|]; [|exact Hs].
  destruct (truthy (q_text q)); [|exact Hs].
  apply sequentialIds_snoc; auto.
Qed.

Lemma step_idInvariant (st st' : State) (raw : string) :
  idInvariant st -> step st raw = Ok st' -> idInvariant st'.
Proof.
  intros Hinv Hstep.
  destruct (step_cases st raw) as [H|[H|(q & t & o & Hc & _ & H)]];
    rewrite H in Hstep; inversion Hstep; subst; clear Hstep.
  - exact Hinv.
  - split; simpl.
    + now apply flush_sequential.
    + intros q Hq. inversion Hq. apply startQuestion_id.
  - destruct Hinv as [Hs Hcur]. split; simpl; [exact Hs|].
    intros q' Hq. inversion Hq. simpl. now apply Hcur.
Qed.

Lemma foldM_idInvariant (lines : list string) :
  forall st, idInvariant st ->
    exists st', foldM step lines st = Ok st' /\ idInvariant st'.
Proof.
  induction lines as [|raw lines IH]; intros st Hinv; simpl; [now exists st|].
  destruct (foldM_step_ok [raw] st) as [st1 H1]. simpl in H1.
  destruct (step st raw) as [st2|] eqn:E; [|discriminate]. simpl.
  apply IH. eapply step_idInvariant; eauto.
Qed.

Lemma bullets_without_question (lines : list string) :
  Forall (fun raw => isBullet (trim raw) = true) lines ->
  foldM step lines initialState = Ok initialState.
Proof.
  induction 1 as [|raw lines Hb _ IH]; simpl; [reflexivity|].
  rewrite step_other; simpl; auto.
  - now apply isBullet_shape.
  - apply andb_false_r.
Qed.

(** C2: the parser is total.  For every input string [convertTextToSurvey]
    returns a survey and never throws; when the scan produces zero questions
    the survey holds exactly the placeholder question ([q1], the fixed text,
    type [text]), otherwise it holds the scanned questions; the empty input
    gives the default title and description and the placeholder. *)
Theorem convertTextToSurvey_total :
  (forall input : string,
     exists qs s,
       parseQuestions (nonBlankLines input) = Ok qs
       /\ convertTextToSurvey input = Ok s
       /\ (qs = [] ->
           questions s =
             [{| q_id := "q1"; q_text := "No questions were found in the response";
                 q_type := text; q_options := None |}])
       /\ (qs <> [] -> questions s = qs))
  /\ convertTextToSurvey "" =
       Ok {| title := "Untitled Survey";
             description := "No description provided";
             questions :=
               [{| q_id := "q1"; q_text := "No questions were found in the response";
                   q_type := text; q_options := None |}] |}.
Proof.
  split; [|reflexivity].
  intros input. unfold convertTextToSurvey.
  destruct (parseQuestions_ok (nonBlankLines input)) as [qs Hqs].
  rewrite Hqs. cbn [bind]. eexists qs, _. split; [reflexivity|].
  split; [reflexivity|]. cbn [questions]. split.
  - intros ->. reflexivity.
  - intros Hne. destruct qs; [contradiction|reflexivity].
Qed.

Lemma convertTextToSurvey_total_witness :
  exists s,
    convertTextToSurvey (joinLines ["T"; "D"; "no question here"]) = Ok s
    /\ questions s =
         [{| q_id := "q1"; q_text := "No questions were found in the response";
             q_type := text; q_options := None |}].
Proof.
  destruct (proj1 convertTextToSurvey_total (joinLines ["T"; "D"; "no question here"]))
    as (qs & s & Hq & Hs & Hempty & _).
  exists s. split; [exact Hs|]. apply Hempty.
  vm_compute in Hq. injection Hq as <-. reflexivity.
Defined.

(** C7: for every input the questions of the parsed survey carry the
    identifiers q1, q2, ... in output order, whatever numbers the input lines
    bear; e.g. lines numbered 7 and 3 give q1 and q2. *)
Theorem question_ids_sequential :
  (forall input : string,
     exists s,
       convertTextToSurvey input = Ok s
       /\ map q_id (questions s) =
            map (fun i => "q" ++ ofNat i) (seq 1 (List.length (questions s))))
  /\ (exists s,
        convertTextToSurvey (joinLines ["T"; "D"; "7. First"; "3) Second"]) = Ok s
        /\ map q_id (questions s) = ["q1"; "q2"]
        /\ map q_text (questions s) = ["First"; "Second"]).
Proof.
  split; [|eexists; split; [reflexivity|split; reflexivity]].
  intros input. unfold convertTextToSurvey.
  rewrite parseQuestions_scan. unfold scanLines.
  destruct (foldM_idInvariant (skipn 2 (nonBlankLines input)) (st := initialState))
    as (st & Hst & Hinv).
  { split; [reflexivity|]. intros q Hq. discriminate Hq. }
  rewrite Hst. cbn [bind]. eexists. split; [reflexivity|]. cbn [questions].
  pose proof (flush_sequential Hinv) as Hseq.
  destruct (flush st); [reflexivity|exact Hseq].
Qed.

(** C5: on the sample input the parser gives title T, description Desc,
    question 1 of type text and question 2, first inferred as rating from
    the keyword, turned into multiple_choice with options a and b by the dash
    lines.  In general a dash or asterisk line met while a question with text
    is current makes it multiple_choice when it has no options array yet and
    appends the trimmed item; an existing options array is kept and only
    extended; with no current question such a line changes nothing, and a
    body made of such lines only yields no question. *)
Theorem dash_lines_make_multiple_choice :
  convertTextToSurvey sampleInput =
    Ok {| title := "T"; description := "Desc";
          questions :=
            [{| q_id := "q1"; q_text := "What is your name?"; q_type := text;
                q_options := None |};
             {| q_id := "q2"; q_text := "Rate our service";
                q_type := multiple_choice; q_options := Some ["a"; "b"] |}] |}
  /\ (forall qs, q_type (startQuestion qs "2. Rate our service") = rating
                 /\ q_options (startQuestion qs "2. Rate our service") = None)
  /\ (forall st q raw,
        currentQuestion st = Some q -> truthy (q_text q) = true ->
        isBullet (trim raw) = true -> q_options q = None ->
        step st raw =
          Ok {| st_questions := st_questions st;
                currentQuestion :=
                  Some {| q_id := q_id q; q_text := q_text q;
                          q_type := multiple_choice;
                          q_options := Some [trim (replaceBullet (trim raw))] |} |})
  /\ (forall st q o raw,
        currentQuestion st = Some q -> truthy (q_text q) = true ->
        isBullet (trim raw) = true -> q_options q = Some o ->
        step st raw =
          Ok {| st_questions := st_questions st;
                currentQuestion :=
                  Some {| q_id := q_id q; q_text := q_text q;
                          q_type := q_type q;
                          q_options := Some (o ++ [trim (replaceBullet (trim raw))])%list |} |})
  /\ (forall st raw,
        hasText (currentQuestion st) = false -> isBullet (trim raw) = true ->
        step st raw = Ok st)
  /\ (forall lines,
        Forall (fun raw => isBullet (trim raw) = true) (skipn 2 lines) ->
        parseQuestions lines = Ok []).
Proof.
  split; [reflexivity|]. split; [intros qs; split; reflexivity|].
  split; [|split; [|split]].
  - intros st q raw Hc Ht Hb Ho. rewrite (step_bullet _ _ Hc Ht Hb), Ho. reflexivity.
  - intros st q o raw Hc Ht Hb Ho. rewrite (step_bullet _ _ Hc Ht Hb), Ho. reflexivity.
  - intros st raw Hh Hb. apply step_other.
    + now apply isBullet_shape.
    + rewrite Hh. apply andb_false_r.
  - intros lines H. rewrite parseQuestions_scan. unfold scanLines.
    rewrite (bullets_without_question H). reflexivity.
Qed.

Lemma dash_lines_make_multiple_choice_witness :
  step {| st_questions := [];
          currentQuestion := Some {| q_id := "q1"; q_text := "Rate our service";
                                     q_type := rating; q_options := None |} |}
       "  - a " =
    Ok {| st_questions := [];
          currentQuestion := Some {| q_id := "q1"; q_text := "Rate our service";
                                     q_type := multiple_choice;
                                     q_options := Some ["a"] |} |}.
Proof.
  destruct dash_lines_make_multiple_choice as (_ & _ & H & _).
  apply (H {| st_questions := [];
              currentQuestion := Some {| q_id := "q1"; q_text := "Rate our service";
                                         q_type := rating; q_options := None |} |}
           {| q_id := "q1"; q_text := "Rate our service";
              q_type := rating; q_options := None |} "  - a "); reflexivity.
Defined.

(** *** Blank lines, title and description *)

Lemma foldM_step_filter (lines : list string) :
  forall st, foldM step (filter nonBlank lines) st = foldM step lines st.
Proof.
  induction lines as [|l lines IH]; intros st; [reflexivity|].
  cbn [filter foldM]. destruct (nonBlank l) eqn:E.
  - cbn [foldM]. destruct (step st l); cbn [bind]; [apply IH|reflexivity].
  - rewrite (step_blank st l E). cbn [bind]. apply IH.
Qed.

Lemma skipn_filter_nonBlank (lines : list string) :
  forall n, skipn n (filter nonBlank lines) = filter nonBlank (afterNonBlank lines n).
Proof.
  induction lines as [|l lines IH]; intros n.
  - now destruct n.
  - destruct n as [|n]; [reflexivity|].
    cbn [filter afterNonBlank]. destruct (nonBlank l); [apply IH|apply IH].
Qed.

Lemma nth_error_filter_nonBlank (lines : list string) (n : nat) :
  nth_error (filter nonBlank lines) n = find nonBlank (afterNonBlank lines n).
Proof.
  revert n. induction lines as [|l lines IH]; intros n.
  - now destruct n.
  - destruct n as [|n].
    + cbn [filter afterNonBlank find]. destruct (nonBlank l); [reflexivity|].
      rewrite (IH 0). destruct lines; reflexivity.
    + cbn [filter afterNonBlank]. destruct (nonBlank l); [apply IH|apply IH].
Qed.

Lemma stripPrefixCI_app (p l r : string) :
  foldCaseAll l = foldCaseAll p -> stripPrefixCI p (l ++ r) = Some r.
Proof.
  revert l. induction p as [|a p IH]; intros [|c l] H; cbn [foldCaseAll] in H;
    try discriminate; [reflexivity|].
  injection H as Hc Hl. cbn [append stripPrefixCI].
  rewrite Hc, Ascii.eqb_refl. now apply IH.
Qed.

Lemma stripPrefixCI_inv (p : string) :
  forall s r, stripPrefixCI p s = Some r ->
    exists l, s = l ++ r /\ foldCaseAll l = foldCaseAll p.
Proof.
  induction p as [|a p IH]; intros s r H.
  - exists "". cbn in H. injection H as <-. now split.
  - destruct s as [|c s]; cbn [stripPrefixCI] in H; [discriminate|].
    destruct (Ascii.eqb_spec (foldCase a) (foldCase c)) as [E|_]; [|discriminate].
    destruct (IH _ _ H) as (l & -> & Hl). exists (String c l).
    cbn [append foldCaseAll]. now rewrite Hl, E.
Qed.

Lemma stripPrefixCI_head (a c : ascii) (p s : string) :
  foldCase a <> foldCase c -> stripPrefixCI (String a p) (String c s) = None.
Proof.
  intros H. cbn [stripPrefixCI].
  now destruct (Ascii.eqb_spec (foldCase a) (foldCase c)).
Qed.

Lemma foldCaseAll_app (a b : string) :
  foldCaseAll (a ++ b) = foldCaseAll a ++ foldCaseAll b.
Proof. induction a as [|c a IH]; cbn; [reflexivity|now rewrite IH]. Qed.

Lemma stripPrefixCI_append (p q : string) :
  forall s, stripPrefixCI (p ++ q) s =
            match stripPrefixCI p s with
            | Some r => stripPrefixCI q r
            | None => None
            end.
Proof.
  induction p as [|a p IH]; intros s; cbn [append stripPrefixCI]; [reflexivity|].
  destruct s as [|c s]; [reflexivity|].
  destruct (Ascii.eqb (foldCase a) (foldCase c)); [apply IH|reflexivity].
Qed.

Lemma label_colon (p lbl rest : string) :
  foldCaseAll lbl = foldCaseAll p ->
  stripPrefixCI (p ++ ":") (lbl ++ ":" ++ rest) = Some rest.
Proof.
  intros H. rewrite stripPrefixCI_append, (stripPrefixCI_app p lbl (":" ++ rest) H).
  reflexivity.
Qed.

Lemma label_other (a : ascii) (p q lbl rest : string) (c : ascii) :
  foldCaseAll lbl = String c q -> foldCase a <> c ->
  stripPrefixCI (String a p) (lbl ++ rest) = None.
Proof.
  intros H Hne. destruct lbl as [|x l]; cbn [foldCaseAll] in H; [discriminate|].
  injection H as Hx _. cbn [append]. apply stripPrefixCI_head. now rewrite Hx.
Qed.

Lemma replaceTitleLabel_label (lbl rest : string) :
  isLabel lbl = true -> replaceTitleLabel (lbl ++ ":" ++ rest) = trimStart rest.
Proof.
  unfold isLabel, titleLabels. cbn [existsb]. rewrite orb_false_r.
  intros H. apply orb_prop in H as [H|H]; [|apply orb_prop in H as [H|H]];
    apply String.eqb_eq in H; unfold replaceTitleLabel, titleLabels;
    cbn [map firstSome].
  - rewrite (@label_colon "Title" lbl rest H). reflexivity.
  - change ("Title" ++ ":") with (String "T" "itle:").
    rewrite (@label_other "T" "itle:" _ lbl (":" ++ rest) _ H) by (vm_compute; discriminate).
    rewrite (@label_colon "Survey" lbl rest H). reflexivity.
  - change ("Title" ++ ":") with (String "T" "itle:").
    change ("Survey" ++ ":") with (String "S" "urvey:").
    rewrite (@label_other "T" "itle:" _ lbl (":" ++ rest) _ H) by (vm_compute; discriminate).
    rewrite (@label_other "S" "urvey:" _ lbl (":" ++ rest) _ H) by (vm_compute; discriminate).
    rewrite (@label_colon "#" lbl rest H). reflexivity.
Qed.

Lemma replaceTitleLabel_none (l : string) :
  (forall lbl rest, isLabel lbl = true -> l <> lbl ++ ":" ++ rest) ->
  replaceTitleLabel l = l.
Proof.
  intros H. unfold replaceTitleLabel.
  assert (Hnone : forall p, In p titleLabels -> stripPrefixCI (p ++ ":") l = None).
  { intros p Hp. destruct (stripPrefixCI (p ++ ":") l) as [r|] eqn:E; [|reflexivity].
    rewrite stripPrefixCI_append in E.
    destruct (stripPrefixCI p l) as [r1|] eqn:E1; [|discriminate].
    destruct (stripPrefixCI_inv _ _ E1) as (lbl & -> & Hl).
    destruct (stripPrefixCI_inv _ _ E) as (c & -> & Hc).
    destruct c as [|x [|y c]]; cbn [foldCaseAll] in Hc; try discriminate.
    injection Hc as Hx. exfalso. apply (H lbl r).
    - unfold isLabel. apply existsb_exists. exists p. split; [exact Hp|].
      now apply String.eqb_eq.
    - f_equal. cbn [append]. f_equal.
      revert Hx. clear. destruct x as [[] [] [] [] [] [] [] []]; vm_compute;
        intros E; try discriminate E; reflexivity. }
  unfold titleLabels in *. cbn [map firstSome].
  rewrite !Hnone by (cbn; auto). reflexivity.
Qed.

(** C9, as stated, fails: with a blank line before the third line, the scan
    of the specification (blank lines kept, from the third line on) finds the
    question that the parser has already consumed as the description. *)
Lemma blank_line_shifts_scan_start :
  parseQuestions (nonBlankLines (joinLines ["T"; ""; "1. A"])) = Ok []
  /\ describedQuestions (joinLines ["T"; ""; "1. A"]) =
       Ok [{| q_id := "q1"; q_text := "A"; q_type := text; q_options := None |}]
  /\ parseQuestions (nonBlankLines (joinLines ["T"; ""; "1. A"]))
       <> describedQuestions (joinLines ["T"; ""; "1. A"])
  /\ convertTextToSurvey (joinLines ["T"; ""; "1. A"]) =
       Ok {| title := "T"; description := "1. A"; questions := [placeholder] |}.
Proof.
  split; [reflexivity|]. split; [reflexivity|]. split; [|reflexivity].
  vm_compute. discriminate.
Qed.

(** C9, amended: blank lines are dropped once, before the title, the
    description and the questions are read, so the scan covers the non-blank
    lines from the third non-blank line on; blank lines met after the second
    non-blank line change nothing: the result is the scan, blank lines kept,
    of the lines that follow the second non-blank line. *)
Theorem scan_starts_after_second_non_blank_line (input : string) :
  parseQuestions (nonBlankLines input) = scanLines (skipn 2 (nonBlankLines input))
  /\ parseQuestions (nonBlankLines input) =
       scanLines (afterNonBlank (split LF input) 2).
Proof.
  split; [apply parseQuestions_scan|].
  rewrite parseQuestions_scan. unfold nonBlankLines, scanLines.
  now rewrite skipn_filter_nonBlank, foldM_step_filter.
Qed.

(** C6, as stated, fails: a [#] without a colon is not stripped, the
    description is trimmed and not verbatim, and a first line that is only a
    label gives the default title. *)
Lemma hash_kept_description_trimmed :
  (exists s,
     convertTextToSurvey (joinLines ["# Heading"; "  Desc  "]) = Ok s
     /\ title s = "# Heading" /\ description s = "Desc"
     /\ describedTitle (joinLines ["# Heading"; "  Desc  "]) = "Heading"
     /\ describedDescription (joinLines ["# Heading"; "  Desc  "]) = "  Desc  "
     /\ title s <> describedTitle (joinLines ["# Heading"; "  Desc  "])
     /\ description s <> describedDescription (joinLines ["# Heading"; "  Desc  "]))
  /\ (exists s,
        convertTextToSurvey (joinLines ["Title:"; "D"]) = Ok s
        /\ title s = "Untitled Survey"
        /\ describedTitle (joinLines ["Title:"; "D"]) = "").
Proof.
  split; eexists; (split; [reflexivity|]).
  - repeat (split; [reflexivity|]). split; vm_compute; discriminate.
  - split; reflexivity.
Qed.

(** C6, amended: the title is the first non-blank line with a leading
    [Title:], [Survey:] or [#:] (any letter case, colon required, following
    white space included) removed and the result trimmed, or "Untitled Survey"
    when there is no non-blank line or nothing is left; the description is the
    second non-blank line trimmed, or "No description provided" when there is
    none.  A line made of a label, a colon and a rest loses the label, the
    colon and the white space before the rest; a line not of that shape is
    left as it is. *)
Theorem title_and_description_trimmed :
  (forall input : string,
     exists s,
       convertTextToSurvey input = Ok s
       /\ title s =
            match find nonBlank (split LF input) with
            | Some l => if truthy (trim (replaceTitleLabel l))
                        then trim (replaceTitleLabel l) else "Untitled Survey"
            | None => "Untitled Survey"
            end
       /\ description s =
            match find nonBlank (afterNonBlank (split LF input) 1) with
            | Some l => trim l
            | None => "No description provided"
            end)
  /\ (forall lbl rest, isLabel lbl = true ->
        replaceTitleLabel (lbl ++ ":" ++ rest) = trimStart rest)
  /\ (forall l, (forall lbl rest, isLabel lbl = true -> l <> lbl ++ ":" ++ rest) ->
        replaceTitleLabel l = l).
Proof.
  split; [|split; [apply replaceTitleLabel_label|apply replaceTitleLabel_none]].
  intros input. unfold convertTextToSurvey.
  destruct (parseQuestions_ok (nonBlankLines input)) as [qs Hqs].
  rewrite Hqs. cbn [bind]. eexists. split; [reflexivity|].
  cbn [title description]. unfold parseTitle, parseDescription, nonBlankLines.
  rewrite !nth_error_filter_nonBlank. split.
  - destruct (split LF input) as [|l0 ls]; [reflexivity|].
    cbn [afterNonBlank]. destruct (find nonBlank (l0 :: ls)); reflexivity.
  - destruct (find nonBlank (afterNonBlank (split LF input) 1)) as [l|] eqn:E;
      [|reflexivity].
    apply find_some in E as [_ E]. cbn [option_map orDefault].
    unfold nonBlank in E. now rewrite E.
Qed.

Lemma title_and_description_trimmed_witness :
  isLabel "SURVEY" = true
  /\ replaceTitleLabel ("SURVEY" ++ ":" ++ "  Pets") = "Pets".
Proof.
  split; [reflexivity|].
  destruct title_and_description_trimmed as (_ & H & _).
  apply (H "SURVEY" "  Pets"). reflexivity.
Defined.

End ParserFacts.

(** ** Objects *)

Section ObjectFacts.
Import JsString JsObject.
Local Open Scope bool_scope.
Variable V : Type.
Implicit Types (o p : obj V) (k : string) (v : V).

Lemma get_None_keys o k : get o k = None <-> ~ In k (map fst o).
Proof.
  induction o as [|[k' v'] o IH]; cbn [get map fst In]; [tauto|].
  destruct (String.eqb_spec k' k) as [->|Hne].
  - split; [discriminate|tauto].
  - rewrite IH. tauto.
Qed.

Lemma get_app o p k :
  get (o ++ p) k = match get o k with Some x => Some x | None => get p k end.
Proof.
  induction o as [|[k' v'] o IH]; cbn [get app]; [reflexivity|].
  now destruct (String.eqb k' k).
Qed.

Lemma get_replace o k v k' :
  get (replace o k v) k' =
    if String.eqb k k' then option_map (fun _ => v) (get o k) else get o k'.
Proof.
  induction o as [|[k0 v0] o IH]; cbn [get replace option_map].
  - now destruct (String.eqb k k').
  - destruct (String.eqb_spec k0 k) as [->|Hne]; cbn [get].
    + destruct (String.eqb_spec k k'); reflexivity.
    + rewrite IH. destruct (String.eqb_spec k0 k') as [->|Hne'].
      * destruct (String.eqb_spec k k'); [congruence|reflexivity].
      * reflexivity.
Qed.

Lemma get_insertIndex n o k v k' :
  get o k = None ->
  get (insertIndex n k v o) k' = if String.eqb k k' then Some v else get o k'.
Proof.
  induction o as [|[k0 v0] o IH]; cbn [get insertIndex]; intros Hk.
  - reflexivity.
  - destruct (String.eqb_spec k0 k) as [->|Hne]; [discriminate|].
    destruct (arrayIndex k0) as [n0|]; [destruct (n0 <? n)%N|]; cbn [get];
      try reflexivity.
    rewrite (IH Hk). destruct (String.eqb_spec k0 k') as [->|_]; [|reflexivity].
    destruct (String.eqb_spec k k'); [congruence|reflexivity].
Qed.

(** Reading after writing. *)
Lemma get_set o k v k' :
  get (set o k v) k' = if String.eqb k k' then Some v else get o k'.
Proof.
  unfold set. destruct (get o k) as [x|] eqn:E.
  - now rewrite get_replace, E.
  - destruct (arrayIndex k) as [n|].
    + now apply get_insertIndex.
    + rewrite get_app. cbn [get]. destruct (String.eqb_spec k k') as [->|_].
      * now rewrite E.
      * now destruct (get o k').
Qed.

Lemma keys_replace o k v : map fst (replace o k v) = map fst o.
Proof.
  induction o as [|[k0 v0] o IH]; cbn [replace map fst]; [reflexivity|].
  destruct (String.eqb k0 k); cbn [map fst]; [reflexivity|now rewrite IH].
Qed.






Lemma keys_insertIndex n o k v :
  exists o1 o2, o = o1 ++ o2 /\ insertIndex n k v o = o1 ++ (k, v) :: o2.
Proof.
  induction o as [|[k0 v0] o (o1 & o2 & Ho & Hi)]; cbn [insertIndex].
  - now exists [], [].
  - destruct (arrayIndex k0) as [n0|]; [destruct (n0 <? n)%N|].
    + exists ((k0, v0) :: o1), o2. cbn [app]. now rewrite <- Ho, Hi.
    + now exists [], ((k0, v0) :: o).
    + now exists [], ((k0, v0) :: o).
Qed.

(** A write never duplicates a key. *)
Lemma set_NoDup o k v : NoDup (map fst o) -> NoDup (map fst (set o k v)).
Proof.
  intros Hnd. unfold set. destruct (get o k) as [x|] eqn:E.
  - now rewrite keys_replace.
  - apply get_None_keys in E. destruct (arrayIndex k) as [n|].
    + destruct (keys_insertIndex n o k v) as (o1 & o2 & -> & ->).
      rewrite map_app in *. cbn [map fst].
      apply (NoDup_Add (Add_app k _ _)). now split.
    + rewrite map_app. cbn [map fst].
      apply (NoDup_Add (Add_app k _ _)). rewrite app_nil_r. now split.
Qed.

Lemma isProtoMember_In k : isProtoMember k = true <-> In k protoMembers.
Proof.
  unfold isProtoMember. rewrite existsb_exists. split.
  - intros (x & Hx & E). apply String.eqb_eq in E. now subst.
  - intros H. exists k. split; [exact H|apply String.eqb_refl].
Qed.

Lemma isProtoMember_false k : ~ In k protoMembers -> isProtoMember k = false.
Proof.
  intros H. destruct (isProtoMember k) eqn:E; [|reflexivity].
  now apply isProtoMember_In in E.
Qed.

(** An assignment either leaves the object alone or is a write of an own
    property. *)
Lemma assign_cases o k v : assign o k v = o \/ assign o k v = set o k v.
Proof.
  unfold assign, set. destruct (get o k); [now right|].
  destruct (String.eqb k "__proto__"); [now left|now right].
Qed.

Lemma get_assign_other o k v k' : k <> k' -> get (assign o k v) k' = get o k'.
Proof.
  intros Hne. destruct (assign_cases o k v) as [->| ->]; [reflexivity|].
  rewrite get_set. now destruct (String.eqb_spec k k').
Qed.

Lemma get_assign_same o k v :
  k <> "__proto__"%string -> get (assign o k v) k = Some v.
Proof.
  intros Hne. unfold assign. destruct (get o k) as [x|] eqn:E.
  - now rewrite get_replace, String.eqb_refl, E.
  - destruct (String.eqb_spec k "__proto__"); [contradiction|].
    now rewrite get_set, String.eqb_refl.
Qed.

Lemma get_assign_proto o v :
  get o "__proto__" = None -> assign o "__proto__" v = o.
Proof. intros E. unfold assign. now rewrite E. Qed.

(** The object built by a sequence of spreads holds, under each key, the
    value written last. *)
Lemma get_after_changes (changes : list (string * V)) k :
  get (fold_left (fun acc c => set acc (fst c) (snd c)) changes []) k
  = RespondToSurvey.lastEntered changes k.
Proof.
  unfold RespondToSurvey.lastEntered.
  induction changes as [|c changes IH] using rev_ind; [reflexivity|].
  rewrite fold_left_app, rev_app_distr. cbn [fold_left rev app find].
  rewrite get_set. destruct (String.eqb (fst c) k); [reflexivity|exact IH].
Qed.

End ObjectFacts.

(** ** Aggregation *)

Section AggregatorFacts.
Import JsString Parser Scoring JsObject Aggregator.
Local Open Scope bool_scope.

(** An increment either leaves the tally alone (the key "__proto__") or
    writes one own property. *)
Lemma increment_cases (o : obj TallyValue) (key : string) :
  increment o key = o \/ exists v, increment o key = set o key v.
Proof.
  unfold increment. destruct (assign_cases o key (plusOne (read o key))) as [E|E];
    [now left|right; eauto].
Qed.

Lemma proto_is_member : In "__proto__"%string protoMembers.
Proof. unfold protoMembers. cbn [In]. tauto. Qed.

(** A label that names no member of [Object.prototype] and holds no text
    counts up by one. *)
Lemma get_increment (o : obj TallyValue) (key label : string) :
  ~ In label protoMembers ->
  (forall m k, get o label <> Some (Text m k)) ->
  get (increment o key) label =
    if String.eqb key label
    then Some (Count (match get o label with Some (Count n) => n | _ => 0 end + 1))
    else get o label.
Proof.
  intros Hout Hnum. unfold increment.
  destruct (String.eqb_spec key label) as [->|Hne]; [|now apply get_assign_other].
  rewrite get_assign_same by (intros ->; apply Hout, proto_is_member).
  unfold read. rewrite (isProtoMember_false Hout).
  destruct (get o label) as [[[|n]|m k]|] eqn:E; try reflexivity.
  now destruct (Hnum m k).
Qed.

(** A label that names a member of [Object.prototype] other than
    "__proto__" gathers a text. *)
Lemma get_increment_member (o : obj TallyValue) (key label : string) :
  In label protoMembers -> label <> "__proto__"%string ->
  (get o label = None \/ exists k, get o label = Some (Text label k)) ->
  get (increment o key) label =
    if String.eqb key label
    then Some (Text label (match get o label with Some (Text _ k) => k | _ => 0 end + 1))
    else get o label.
Proof.
  intros Hin Hne Hstate. unfold increment.
  destruct (String.eqb_spec key label) as [->|Hkey]; [|now apply get_assign_other].
  rewrite get_assign_same by exact Hne.
  unfold read. apply isProtoMember_In in Hin. rewrite Hin.
  destruct Hstate as [->|[k ->]]; reflexivity.
Qed.

Lemma tally_cons (init : obj TallyValue) (a : SurveyAnswer) (l : list SurveyAnswer) :
  tally init (a :: l) = tally (increment init (response a)) l.
Proof. reflexivity. Qed.


(** Each label that names no member of [Object.prototype] ends with its
    initial count plus the number of answers equal to it; a label that never
    occurs keeps its initial state. *)
Lemma get_tally (label : string) (l : list SurveyAnswer) :
  ~ In label protoMembers ->
  forall init,
    (forall m k, get init label <> Some (Text m k)) ->
    get (tally init l) label =
      match occurrences label l with
      | O => get init label
      | S _ => Some (Count (match get init label with Some (Count n) => n | _ => 0 end
                            + occurrences label l))
      end.
Proof.
  intros Hout. induction l as [|a l IH]; intros init Hnum; [reflexivity|].
  rewrite tally_cons, IH, (@get_increment _ _ _ Hout Hnum).
  - unfold occurrences. cbn [filter].
    destruct (String.eqb_spec (response a) label) as [E|E]; cbn [List.length].
    + fold (occurrences label l).
      destruct (occurrences label l); do 2 f_equal; lia.
    + reflexivity.
  - intros m k. rewrite (@get_increment _ _ _ Hout Hnum).
    destruct (String.eqb (response a) label); [discriminate|apply Hnum].
Qed.

(** A label that names a member of [Object.prototype] other than
    "__proto__" ends with the member's text followed by one "1" for each
    answer equal to it. *)
Lemma get_tally_member (label : string) (l : list SurveyAnswer) :
  In label protoMembers -> label <> "__proto__"%string ->
  forall init,
    (get init label = None \/ exists k, get init label = Some (Text label k)) ->
    get (tally init l) label =
      match occurrences label l with
      | O => get init label
      | S _ => Some (Text label (match get init label with Some (Text _ k) => k | _ => 0 end
                                 + occurrences label l))
      end.
Proof.
  intros Hin Hne. induction l as [|a l IH]; intros init Hstate; [reflexivity|].
  rewrite tally_cons, IH, (@get_increment_member _ _ _ Hin Hne Hstate).
  - unfold occurrences. cbn [filter].
    destruct (String.eqb_spec (response a) label) as [E|E]; cbn [List.length].
    + fold (occurrences label l).
      destruct (occurrences label l); do 2 f_equal; lia.
    + reflexivity.
  - rewrite (@get_increment_member _ _ _ Hin Hne Hstate).
    destruct (String.eqb (response a) label); [right; eauto|exact Hstate].
Qed.

(** No tally ever holds the label "__proto__". *)
Lemma get_tally_proto (l : list SurveyAnswer) :
  forall init,
    get init "__proto__" = None -> get (tally init l) "__proto__" = None.
Proof.
  induction l as [|a l IH]; intros init Hinit; [exact Hinit|].
  rewrite tally_cons. apply IH. unfold increment.
  destruct (String.eqb_spec (response a) "__proto__") as [->|Hne].
  - now rewrite get_assign_proto.
  - now rewrite get_assign_other.
Qed.

Lemma countOf_toData (label : string) (o : obj TallyValue) :
  countOf label (toData o) = get o label.
Proof.
  unfold countOf, toData, entries.
  induction o as [|[k v] o IH]; cbn [map find get fst snd name]; [reflexivity|].
  destruct (String.eqb k label); [reflexivity|exact IH].
Qed.

Lemma names_toData (o : obj TallyValue) : map name (toData o) = map fst o.
Proof. unfold toData, entries. rewrite map_map. reflexivity. Qed.

Lemma arrayIndex_canonical (k : string) (n : N) :
  arrayIndex k = Some n -> k = ofN n.
Proof.
  unfold arrayIndex. destruct k as [|c k]; [discriminate|].
  destruct (digitsValue 0 (String c k)) as [m|]; [|discriminate].
  destruct (String.eqb_spec (ofN m) (String c k)) as [E|_]; [|discriminate].
  destruct (m <=? 4294967294)%N; [|discriminate].
  intros H. injection H as <-. now symmetry.
Qed.













Lemma tally_NoDup (l : list SurveyAnswer) :
  forall init, NoDup (map fst init) -> NoDup (map fst (tally init l)).
Proof.
  induction l as [|a l IH]; intros init H; [exact H|].
  rewrite tally_cons. apply IH.
  destruct (increment_cases init (response a)) as [->|[v ->]]; [exact H|].
  now apply set_NoDup.
Qed.




End AggregatorFacts.

(** ** Scoring *)

Section ScoringFacts.
Import JsString JsNumber Scoring.
Local Open Scope bool_scope.

Lemma div_length (a : num) (n : nat) :
  n <> 0 -> div a (ofLength n) = Value (lift2 Qdiv a (ofLength n)).
Proof.
  intros H. destruct n as [|n]; [contradiction|]. reflexivity.
Qed.

Lemma nps_value (rs : list SurveyResponseData) : exists v, nps rs = Value v.
Proof.
  unfold nps. destruct (Nat.eqb_spec (List.length (npsScores rs)) 0) as [_|H];
    [now eexists|].
  rewrite !(div_length _ H). cbn [bindO]. now eexists.
Qed.

Lemma sus_value (rs : list SurveyResponseData) : exists v, sus rs = Value v.
Proof.
  unfold sus. destruct (Nat.eqb_spec (List.length (susScores rs)) 0) as [_|H];
    [now eexists|].
  rewrite (div_length _ H). cbn [bindO]. now eexists.
Qed.

Lemma csat_value (rs : list SurveyResponseData) : exists v, csat rs = Value v.
Proof.
  unfold csat. destruct (Nat.eqb_spec (List.length (csatScores rs)) 0) as [_|H];
    [now eexists|].
  rewrite (div_length _ H). cbn [bindO]. now eexists.
Qed.

Lemma ces_value (rs : list SurveyResponseData) : exists v, ces rs = Value v.
Proof.
  unfold ces. destruct (Nat.ltb_spec 0 (List.length (cesScores rs))) as [H|_];
    [|now eexists].
  rewrite div_length by lia. now eexists.
Qed.

Lemma tsm_value (rs : list SurveyResponseData) : exists v, tsm rs = Value v.
Proof.
  unfold tsm. destruct (Nat.eqb_spec (List.length (tsmScores rs)) 0) as [_|H];
    [now eexists|].
  rewrite (div_length _ H). cbn [bindO]. now eexists.
Qed.

(** C8: each of the five formulas returns 0 when its filtered answer set is
    empty (for SUS: when there is no response), and none of them ever
    evaluates a division by zero; e.g. answers that fail every filter score
    0. *)
Theorem scores_zero_on_empty_filter :
  (forall rs : list SurveyResponseData,
     (npsScores rs = [] -> nps rs = Value (Fin 0%Q))
     /\ (rs = [] -> sus rs = Value (Fin 0%Q))
     /\ (csatScores rs = [] -> csat rs = Value (Fin 0%Q))
     /\ (cesScores rs = [] -> ces rs = Value (Fin 0%Q))
     /\ (tsmScores rs = [] -> tsm rs = Value (Fin 0%Q))
     /\ nps rs <> DivisionByZero /\ sus rs <> DivisionByZero
     /\ csat rs <> DivisionByZero /\ ces rs <> DivisionByZero
     /\ tsm rs <> DivisionByZero)
  /\ nps (ofValues ["n/a"%string]) = Value (Fin 0%Q)
  /\ csat (ofValues ["n/a"%string]) = Value (Fin 0%Q)
  /\ ces (ofValues ["n/a"%string]) = Value (Fin 0%Q)
  /\ tsm (ofValues ["n/a"%string]) = Value (Fin 0%Q)
  /\ sus [] = Value (Fin 0%Q).
Proof.
  split; [|repeat split].
  intros rs. repeat split.
  - intros H. unfold nps. now rewrite H.
  - intros ->. reflexivity.
  - intros H. unfold csat. now rewrite H.
  - intros H. unfold ces. now rewrite H.
  - intros H. unfold tsm. now rewrite H.
  - destruct (nps_value rs) as [v ->]. discriminate.
  - destruct (sus_value rs) as [v ->]. discriminate.
  - destruct (csat_value rs) as [v ->]. discriminate.
  - destruct (ces_value rs) as [v ->]. discriminate.
  - destruct (tsm_value rs) as [v ->]. discriminate.
Qed.

Lemma scores_zero_on_empty_filter_witness :
  csatScores (ofValues ["7"; "n/a"]%string) = []
  /\ csat (ofValues ["7"; "n/a"]%string) = Value (Fin 0%Q).
Proof.
  split; [reflexivity|].
  destruct (proj1 scores_zero_on_empty_filter (ofValues ["7"; "n/a"]%string))
    as (_ & _ & H & _).
  apply H. reflexivity.
Defined.

(** C1: on the answers "9", "9", "10", "3" the code compares strings with
    strings, keeps only "10" and returns 100; the reference formula (numeric
    range 0..10) gives 50.  No one-digit answer from "2" to "9" passes the
    filter. *)
Theorem nps_filter_compares_strings :
  npsScores (ofValues ["9"; "9"; "10"; "3"]%string) = [Fin 10%Q]
  /\ nps (ofValues ["9"; "9"; "10"; "3"]%string) = Value (Fin 100%Q)
  /\ (exists q, npsReference (ofValues ["9"; "9"; "10"; "3"]%string) = Value (Fin q)
                /\ Qeq q 50%Q)
  /\ (forall qid v, In v ["2"; "3"; "4"; "5"; "6"; "7"; "8"; "9"]%string ->
        inRange "0" "10" {| question_id := qid; response := v |} = false).
Proof.
  split; [reflexivity|]. split; [reflexivity|]. split.
  - eexists. split; [reflexivity|]. reflexivity.
  - intros qid v Hv. cbn [In] in Hv.
    repeat (destruct Hv as [<-|Hv]; [reflexivity|]). contradiction.
Qed.

End ScoringFacts.

(** ** Status writes and submitted answers *)

Section PageFacts.
Import JsString Parser JsNumber JsObject Persistence.
Local Open Scope bool_scope.

(** C3: the create page stores only draft and live (a saved survey is
    inserted as draft, set-live writes live), but [handleSave] of the
    TakeSurvey page updates the status to "saved", which is neither. *)
Theorem handleSave_writes_saved :
  (forall s verified uuid now w,
     In w (CreateSurvey.handleSubmit (Some s) verified uuid now) ->
     writtenStatus w = Some "draft"%string)
  /\ (forall id w, In w (CreateSurvey.setLive id) -> writtenStatus w = Some "live"%string)
  /\ (forall id cur w, In w (CreateSurvey.toggleSurveyStatus id cur) ->
        exists st, writtenStatus w = Some st /\ isStatus st = true)
  /\ (forall row uuid now w, In w (CreateSurvey.duplicateSurvey row uuid now) ->
        writtenStatus w = Some "draft"%string)
  /\ (forall survey,
        map writtenStatus (TakeSurvey.handleSave (Some survey)) = [Some "saved"%string])
  /\ isStatus "saved" = false.
Proof.
  repeat split.
  - intros s verified uuid now w. unfold CreateSurvey.handleSubmit.
    destruct verified; cbn; [|tauto]. now intros [<-|[]].
  - intros id w. unfold CreateSurvey.setLive. destruct id as [id|]; [|intros []].
    destruct (truthy id); cbn; [|tauto]. now intros [<-|[]].
  - intros id cur w. unfold CreateSurvey.toggleSurveyStatus.
    destruct (String.eqb cur "live"); cbn; intros [<-|[]]; eexists; split; reflexivity.
  - intros row uuid now w [<-|[]]. reflexivity.
Qed.

Lemma orEmpty_read_after_changes (changes : list (string * AnswerValue)) (qid : string) :
  TakeSurvey.orEmpty (read (TakeSurvey.afterChanges changes) qid) =
    match RespondToSurvey.lastEntered changes qid with
    | Some (AStr s) => AStr s
    | Some (ANum (Fin x)) => if Qeq_bool x 0 then AStr "" else ANum (Fin x)
    | Some (ANum NaN) => AStr ""
    | Some (AMember member) => AMember member
    | None => if isProtoMember qid then AMember qid else AStr ""
    end.
Proof.
  unfold read, TakeSurvey.afterChanges, TakeSurvey.handleAnswerChange.
  rewrite (get_after_changes changes).
  destruct (RespondToSurvey.lastEntered changes qid) as [[s|[|x]|m]|];
    cbn [TakeSurvey.orEmpty]; try reflexivity.
  - unfold truthy. now destruct (String.eqb_spec s "") as [->|_].
  - now destruct (isProtoMember qid).
Qed.




End PageFacts.

(** ** Further properties of the parser *)

Section ParserShapeFacts.
Import JsString Parser ParserShapes.
Local Open Scope string_scope.
Local Open Scope bool_scope.

Lemma ofNat_injective (a b : nat) : ofNat a = ofNat b -> a = b.
Proof.
  unfold ofNat. intros H.
  assert (E : Some (Nat.to_uint a) = Some (Nat.to_uint b)).
  { rewrite <- !NilEmpty.usu. now rewrite H. }
  injection E as E. rewrite <- (DecimalNat.Unsigned.of_to a), E.
  apply DecimalNat.Unsigned.of_to.
Qed.

Lemma NoDup_map_injective (A B : Type) (f : A -> B) (l : list A) :
  (forall x y, f x = f y -> x = y) -> NoDup l -> NoDup (map f l).
Proof.
  intros Hf. induction 1 as [|a l Hn _ IH]; cbn [map]; constructor; [|exact IH].
  intros Hin. apply in_map_iff in Hin as (y & Hy & Hin).
  apply Hf in Hy. now subst.
Qed.

Lemma sequentialIds_NoDup (qs : list Question) :
  sequentialIds qs -> NoDup (map q_id qs).
Proof.
  unfold sequentialIds. intros ->. apply NoDup_map_injective; [|apply seq_NoDup].
  intros x y H. injection H as H. now apply ofNat_injective.
Qed.

(** The scan always ends, in a state that satisfies a given invariant of the
    loop body. *)
Lemma scan_invariant (P : State -> Prop) (lines : list string) :
  (forall st raw st', P st -> step st raw = Ok st' -> P st') ->
  forall st, P st -> exists st', foldM step lines st = Ok st' /\ P st'.
Proof.
  intros Hstep. induction lines as [|raw lines IH]; intros st HP; cbn [foldM];
    [now exists st|].
  destruct (foldM_step_ok [raw] st) as [st1 H1]. cbn [foldM] in H1.
  destruct (step st raw) as [st2|] eqn:E; [|discriminate]. cbn [bind].
  apply IH. eapply Hstep; eauto.
Qed.

(** The survey returned for [input], with the final state of the scan. *)
Lemma convert_shape (input : string) :
  exists st,
    foldM step (skipn 2 (nonBlankLines input)) initialState = Ok st
    /\ convertTextToSurvey input =
         Ok {| title := parseTitle (nonBlankLines input);
               description := parseDescription (nonBlankLines input);
               questions := match flush st with
                            | [] => [placeholder]
                            | _ => flush st
                            end |}.
Proof.
  destruct (foldM_step_ok (skipn 2 (nonBlankLines input)) initialState) as [st Hst].
  exists st. split; [exact Hst|]. unfold convertTextToSurvey.
  rewrite parseQuestions_scan. unfold scanLines. rewrite Hst. reflexivity.
Qed.

(** X1: no two questions of a parsed survey share an identifier. *)
Theorem parsed_ids_distinct (input : string) :
  exists s, convertTextToSurvey input = Ok s /\ NoDup (map q_id (questions s)).
Proof.
  destruct (convert_shape input) as (st & Hst & Hs).
  eexists. split; [exact Hs|]. cbn [questions].
  destruct (@scan_invariant idInvariant (skipn 2 (nonBlankLines input))
              (fun a raw b H1 H2 => @step_idInvariant a b raw H1 H2) initialState)
    as (st' & Hst' & Hinv).
  { split; [reflexivity|]. intros q Hq. discriminate Hq. }
  rewrite Hst in Hst'. injection Hst' as <-.
  apply sequentialIds_NoDup.
  pose proof (flush_sequential Hinv) as Hseq.
  destruct (flush st); [reflexivity|exact Hseq].
Qed.

(** The loop body, case by case, with the state it leaves. *)
Lemma step_outcome (st : State) (raw : string) :
  (testNumbering (trim raw) = false /\ step st raw = Ok st)
  \/ (truthy (trim raw) = true /\ testNumbering (trim raw) = true
      /\ step st raw = Ok {| st_questions := flush st;
                             currentQuestion :=
                               Some (startQuestion (flush st) (trim raw)) |})
  \/ exists q,
       testNumbering (trim raw) = false
       /\ currentQuestion st = Some q /\ truthy (q_text q) = true
       /\ step st raw =
            Ok {| st_questions := st_questions st;
                  currentQuestion :=
                    Some {| q_id := q_id q; q_text := q_text q;
                            q_type := match q_options q with
                                      | None => multiple_choice
                                      | Some _ => q_type q
                                      end;
                            q_options :=
                              Some (match q_options q with None => [] | Some o => o end
                                    ++ [trim (replaceBullet (trim raw))])%list |} |}.
Proof.
  destruct (truthy (trim raw)) eqn:H1.
  - destruct (testNumbering (trim raw)) eqn:H2.
    + right; left. split; [reflexivity|]. split; [reflexivity|].
      now apply step_numbered.
    + destruct (isBullet (trim raw) && hasText (currentQuestion st)) eqn:H3.
      * apply andb_prop in H3 as [Hb Hh]. right; right.
        destruct (currentQuestion st) as [q|] eqn:Hc; [|discriminate].
        exists q. split; [reflexivity|]. split; [reflexivity|].
        split; [exact Hh|]. now apply step_bullet.
      * left. split; [reflexivity|]. now apply step_other.
  - left. split; [|now apply step_blank].
    unfold truthy in H1. apply negb_false_iff, String.eqb_eq in H1.
    now rewrite H1.
Qed.

Lemma startQuestion_optionsMatchType (qs : list Question) (line : string) :
  optionsMatchType (startQuestion qs line) = true.
Proof.
  unfold startQuestion, inferType.
  repeat match goal with
         | |- context [if ?c then _ else _] => destruct c
         end; reflexivity.
Qed.

Lemma flush_wellFormed (st : State) :
  shapeInvariant st -> Forall wellFormed (flush st).
Proof.
  intros [Hq Hc]. unfold flush.
  destruct (currentQuestion st) as [q|] eqn:E; [|exact Hq].
  destruct (truthy (q_text q)) eqn:Ht; [|exact Hq].
  apply Forall_app. split; [exact Hq|]. constructor; [|constructor].
  split; [exact Ht|now apply Hc].
Qed.

Lemma step_shapeInvariant (st : State) (raw : string) (st' : State) :
  shapeInvariant st -> step st raw = Ok st' -> shapeInvariant st'.
Proof.
  intros Hinv Hstep.
  destruct (step_outcome st raw) as [[_ H]|[(_ & _ & H)|(q & _ & Hc & _ & H)]];
    rewrite H in Hstep; injection Hstep as <-.
  - exact Hinv.
  - split; cbn [st_questions currentQuestion].
    + now apply flush_wellFormed.
    + intros q Hq. injection Hq as <-. apply startQuestion_optionsMatchType.
  - destruct Hinv as [Hq Hcur]. split; cbn [st_questions currentQuestion];
      [exact Hq|].
    intros q' Hq'. injection Hq' as <-. specialize (Hcur q Hc).
    unfold optionsMatchType in *. cbn [q_options q_type].
    destruct (q_options q); [exact Hcur|reflexivity].
Qed.

(** X2: every question of a parsed survey has a non-empty text, and it has
    an options array exactly when its type is multiple_choice. *)
Theorem parsed_questions_well_formed (input : string) :
  exists s,
    convertTextToSurvey input = Ok s
    /\ Forall (fun q => truthy (q_text q) = true /\ optionsMatchType q = true)
              (questions s).
Proof.
  destruct (convert_shape input) as (st & Hst & Hs).
  eexists. split; [exact Hs|]. cbn [questions].
  destruct (@scan_invariant shapeInvariant (skipn 2 (nonBlankLines input))
              step_shapeInvariant initialState) as (st' & Hst' & Hinv).
  { split; [constructor|]. intros q Hq. discriminate Hq. }
  rewrite Hst in Hst'. injection Hst' as <-.
  pose proof (flush_wellFormed Hinv) as Hwf.
  destruct (flush st); [|exact Hwf].
  constructor; [|constructor]. split; reflexivity.
Qed.

Lemma numberedTexts_cons (raw : string) (lines : list string) :
  numberedTexts (raw :: lines) =
    ((if testNumbering (trim raw) && truthy (replaceNumbering (trim raw))
      then [replaceNumbering (trim raw)] else []) ++ numberedTexts lines)%list.
Proof.
  unfold numberedTexts. cbn [map filter].
  destruct (testNumbering (trim raw)); [|reflexivity]. cbn [map filter andb].
  now destruct (truthy (replaceNumbering (trim raw))).
Qed.

Lemma flush_texts_bullet (st : State) (q q' : Question) :
  currentQuestion st = Some q -> q_text q' = q_text q ->
  map q_text (flush {| st_questions := st_questions st; currentQuestion := Some q' |})
  = map q_text (flush st).
Proof.
  intros Hc Ht. unfold flush. cbn [st_questions currentQuestion].
  rewrite Hc, Ht. destruct (truthy (q_text q)); [|reflexivity].
  rewrite !map_app. cbn [map]. now rewrite Ht.
Qed.

Lemma scan_texts (lines : list string) :
  forall st st',
    foldM step lines st = Ok st' ->
    map q_text (flush st') = (map q_text (flush st) ++ numberedTexts lines)%list.
Proof.
  induction lines as [|raw lines IH]; intros st st' H.
  - injection H as <-. now rewrite app_nil_r.
  - cbn [foldM] in H. rewrite numberedTexts_cons.
    destruct (step_outcome st raw) as [[Hn E]|[(_ & Hn & E)|(q & Hn & Hc & _ & E)]];
      rewrite E in H; cbn [bind] in H; rewrite (IH _ _ H), Hn; cbn [andb app].
    + reflexivity.
    + rewrite app_assoc. f_equal.
      unfold flush at 1. cbn [st_questions currentQuestion].
      rewrite startQuestion_text.
      destruct (truthy (replaceNumbering (trim raw))).
      * rewrite map_app. cbn [map]. now rewrite startQuestion_text.
      * now rewrite app_nil_r.
    + f_equal. now apply (@flush_texts_bullet st q).
Qed.

(** X3: the questions of a parsed survey are, in order, the numbered lines
    that follow the second non-blank line and have something after their
    marker, each with that rest as its text; when there is none the only
    text is the placeholder's. *)
Theorem parsed_texts_are_numbered_lines (input : string) :
  exists s,
    convertTextToSurvey input = Ok s
    /\ map q_text (questions s) =
         match numberedTexts (skipn 2 (nonBlankLines input)) with
         | [] => ["No questions were found in the response"]
         | texts => texts
         end.
Proof.
  destruct (convert_shape input) as (st & Hst & Hs).
  eexists. split; [exact Hs|]. cbn [questions].
  pose proof (scan_texts _ _ Hst) as Ht. cbn [flush initialState map app] in Ht.
  change (flush initialState) with (@nil Question) in Ht. cbn [map app] in Ht.
  rewrite <- Ht. destruct (flush st); reflexivity.
Qed.

Lemma trimEnd_idempotent (s : string) : trimEnd (trimEnd s) = trimEnd s.
Proof.
  induction s as [|c r IH]; [reflexivity|]. cbn [trimEnd].
  destruct (trimEnd r) as [|d r'] eqn:E.
  - destruct (isWhiteSpace c) eqn:Hc; [reflexivity|].
    cbn [trimEnd]. now rewrite Hc.
  - cbn [trimEnd]. cbn [trimEnd] in IH. now rewrite IH.
Qed.

Lemma trimStart_fixed (s : string) :
  trimStart (trimStart s) = trimStart s.
Proof.
  unfold trimStart. induction s as [|c r IH]; [reflexivity|]. cbn [dropWhile].
  destruct (isWhiteSpace c) eqn:Hc; [exact IH|]. cbn [dropWhile]. now rewrite Hc.
Qed.

Lemma trimStart_trimEnd (s : string) :
  trimStart s = s -> trimStart (trimEnd s) = trimEnd s.
Proof.
  unfold trimStart. destruct s as [|c r]; [reflexivity|]. cbn [dropWhile trimEnd].
  destruct (isWhiteSpace c) eqn:Hc.
  - intros H. exfalso.
    assert (L : forall t, String.length (dropWhile isWhiteSpace t) <= String.length t).
    { induction t as [|x t IHt]; cbn [dropWhile String.length]; [lia|].
      destruct (isWhiteSpace x); cbn [String.length]; lia. }
    specialize (L r). rewrite H in L. cbn [String.length] in L. lia.
  - intros _. destruct (trimEnd r); cbn [dropWhile]; now rewrite Hc.
Qed.

Lemma trim_idempotent (s : string) : trim (trim s) = trim s.
Proof.
  unfold trim. rewrite (trimStart_trimEnd (trimStart_fixed s)).
  apply trimEnd_idempotent.
Qed.

Lemma orDefault_trimmed (o : option string) (d : string) :
  (forall v, o = Some v -> trim v = v) -> trim d = d -> truthy d = true ->
  trim (orDefault o d) = orDefault o d /\ truthy (orDefault o d) = true.
Proof.
  intros Ho Hd Ht. unfold orDefault. destruct o as [v|]; [|now split].
  destruct (truthy v) eqn:E; [|now split]. split; [now apply Ho|exact E].
Qed.

(** X4: the title and the description of a parsed survey are never empty
    and carry no white space at either end. *)
Theorem parsed_title_description_trimmed (input : string) :
  exists s,
    convertTextToSurvey input = Ok s
    /\ truthy (title s) = true /\ trim (title s) = title s
    /\ truthy (description s) = true /\ trim (description s) = description s.
Proof.
  destruct (convert_shape input) as (st & _ & Hs).
  eexists. split; [exact Hs|]. cbn [title description].
  unfold parseTitle, parseDescription.
  destruct (@orDefault_trimmed
              (option_map (fun l => trim (replaceTitleLabel l))
                          (nth_error (nonBlankLines input) 0))
              "Untitled Survey") as [H1 H2]; try reflexivity.
  { intros v Hv. destruct (nth_error (nonBlankLines input) 0); [|discriminate].
    injection Hv as <-. apply trim_idempotent. }
  destruct (@orDefault_trimmed
              (option_map trim (nth_error (nonBlankLines input) 1))
              "No description provided") as [H3 H4]; try reflexivity.
  { intros v Hv. destruct (nth_error (nonBlankLines input) 1); [|discriminate].
    injection Hv as <-. apply trim_idempotent. }
  auto.
Qed.

Lemma step_trim (st : State) (raw : string) : step st (trim raw) = step st raw.
Proof. unfold step. now rewrite trim_idempotent. Qed.

Lemma foldM_step_trim (lines : list string) :
  forall st, foldM step (map trim lines) st = foldM step lines st.
Proof.
  induction lines as [|raw lines IH]; intros st; [reflexivity|].
  cbn [map foldM]. rewrite step_trim.
  destruct (step st raw); cbn [bind]; [apply IH|reflexivity].
Qed.

Lemma foldM_step_relevant (lines : list string) :
  forall st, foldM step (filter relevant lines) st = foldM step lines st.
Proof.
  induction lines as [|raw lines IH]; intros st; [reflexivity|].
  cbn [filter foldM]. destruct (relevant raw) eqn:E.
  - cbn [foldM]. destruct (step st raw); cbn [bind]; [apply IH|reflexivity].
  - unfold relevant in E. apply orb_false_elim in E as [E1 E2].
    rewrite step_other; [cbn [bind]; apply IH|exact E1|now rewrite E2].
Qed.

(** X5: the questions depend only on the trimmed numbered and bullet lines
    that follow the first two non-blank lines: any other line can be removed
    from the body, white space can be stripped around any body line, and
    the two leading lines can be replaced, without changing the scanned
    questions. *)
Theorem scan_sees_only_numbered_and_bullet_lines (t d : string) (body : list string) :
  parseQuestions (t :: d :: filter relevant body) = parseQuestions (t :: d :: body)
  /\ parseQuestions (t :: d :: map trim body) = parseQuestions (t :: d :: body)
  /\ forall t' d', parseQuestions (t' :: d' :: body) = parseQuestions (t :: d :: body).
Proof.
  rewrite !parseQuestions_scan. cbn [skipn]. unfold scanLines.
  rewrite foldM_step_relevant, foldM_step_trim. split; [reflexivity|].
  split; [reflexivity|]. intros t' d'. now rewrite parseQuestions_scan.
Qed.

End ParserShapeFacts.

(** ** Further properties of the aggregation *)

Section AggregatorTotals.
Import JsString Parser Scoring JsObject Aggregator Totals.
Local Open Scope bool_scope.

(** X6: for a multiple_choice or yes_no question the output lists each
    response string that occurs among the question's answers exactly once,
    except "__proto__", and lists nothing else.  A label that names no
    member of [Object.prototype] carries its number of occurrences; a label
    that names such a member carries a text in place of a count. *)
Theorem categorical_tally (rs : list SurveyResponseData) (qid txt : string)
  (opts : option (list string)) (yesNo : bool) :
  exists d,
    aggregateQuestion rs {| q_id := qid; q_text := txt;
                            q_type := if yesNo then yes_no else multiple_choice;
                            q_options := opts |} =
      Some {| data := d; responses := None |}
    /\ NoDup (map name d)
    /\ (forall label,
          ~ In label protoMembers ->
          countOf label d =
            match occurrences label
                    (questionResponses rs
                       {| q_id := qid; q_text := txt;
                          q_type := if yesNo then yes_no else multiple_choice;
                          q_options := opts |}) with
            | O => None
            | S n => Some (Count (S n))
            end)
    /\ (forall label,
          In label protoMembers -> label <> "__proto__"%string ->
          countOf label d =
            match occurrences label
                    (questionResponses rs
                       {| q_id := qid; q_text := txt;
                          q_type := if yesNo then yes_no else multiple_choice;
                          q_options := opts |}) with
            | O => None
            | S n => Some (Text label (S n))
            end)
    /\ countOf "__proto__" d = None.
Proof.
  set (q := {| q_id := qid; q_text := txt;
               q_type := if yesNo then yes_no else multiple_choice;
               q_options := opts |}).
  exists (toData (tally [] (questionResponses rs q))).
  split; [unfold aggregateQuestion; destruct yesNo; reflexivity|].
  split; [|split; [|split]].
  - rewrite names_toData. apply tally_NoDup. constructor.
  - intros label Hout. rewrite countOf_toData, (@get_tally label _ Hout); [|discriminate].
    cbn [get]. now destruct (occurrences label (questionResponses rs q)).
  - intros label Hin Hne.
    rewrite countOf_toData, (@get_tally_member label _ Hin Hne); [|now left].
    cbn [get]. now destruct (occurrences label (questionResponses rs q)).
  - rewrite countOf_toData. now apply get_tally_proto.
Qed.

Lemma total_app (o p : obj TallyValue) : total (o ++ p) = total o + total p.
Proof. unfold total. now rewrite map_app, list_sum_app. Qed.

Lemma total_replace (o : obj TallyValue) (k : string) (v x : TallyValue) :
  get o k = Some x -> total (replace o k v) + numeric x = total o + numeric v.
Proof.
  unfold total, list_sum.
  induction o as [|[k0 v0] o IH]; cbn [get replace]; [discriminate|].
  destruct (String.eqb k0 k).
  - intros H. injection H as <-. cbn [map snd fold_right]. lia.
  - intros H. specialize (IH H). cbn [map snd fold_right]. lia.
Qed.

Lemma total_set_new (o : obj TallyValue) (k : string) (v : TallyValue) :
  get o k = None -> total (set o k v) = total o + numeric v.
Proof.
  intros E. unfold set. rewrite E. destruct (arrayIndex k) as [n|].
  - destruct (keys_insertIndex n o k v) as (o1 & o2 & -> & ->).
    rewrite !total_app. unfold total, list_sum. cbn [map snd fold_right]. lia.
  - rewrite total_app. unfold total, list_sum. cbn [map snd fold_right]. lia.
Qed.

Lemma get_In (V : Type) (o : obj V) (k : string) (x : V) :
  get o k = Some x -> In (k, x) o.
Proof.
  induction o as [|[k0 v0] o IH]; cbn [get In]; [discriminate|].
  destruct (String.eqb_spec k0 k) as [->|_].
  - intros H. injection H as ->. now left.
  - intros H. right. now apply IH.
Qed.

Lemma In_replace (V : Type) (o : obj V) (k : string) (v : V) (e : string * V) :
  In e (replace o k v) -> e = (k, v) \/ In e o.
Proof.
  induction o as [|[k0 v0] o IH]; cbn [replace In]; [tauto|].
  destruct (String.eqb_spec k0 k) as [->|_]; cbn [In].
  - intros [<-|H]; tauto.
  - intros [<-|H]; [tauto|]. destruct (IH H); tauto.
Qed.

Lemma In_set (V : Type) (o : obj V) (k : string) (v : V) (e : string * V) :
  In e (set o k v) -> e = (k, v) \/ In e o.
Proof.
  unfold set. destruct (get o k).
  - apply In_replace.
  - destruct (arrayIndex k) as [n|].
    + destruct (keys_insertIndex n o k v) as (o1 & o2 & -> & ->).
      rewrite !in_app_iff. cbn [In]. intuition auto.
    + rewrite in_app_iff. cbn [In]. intuition auto.
Qed.

Lemma separated_get (o : obj TallyValue) (k : string) (x : TallyValue) :
  separated o -> get o k = Some x ->
  match x with
  | Count _ => isProtoMember k = false
  | Text _ _ => isProtoMember k = true
  end.
Proof.
  intros Ho E. apply get_In in E. unfold separated in Ho.
  rewrite Forall_forall in Ho. exact (Ho _ E).
Qed.

(** One increment keeps numbers and texts apart and adds one to the total
    exactly when the key names no member of [Object.prototype]. *)
Lemma total_increment (o : obj TallyValue) (k : string) :
  separated o ->
  separated (increment o k)
  /\ total (increment o k) = total o + (if isProtoMember k then 0 else 1).
Proof.
  intros Ho. unfold increment, assign, read.
  destruct (get o k) as [x|] eqn:E.
  - pose proof (separated_get _ Ho E) as Hx. split.
    + apply Forall_forall. intros e He. apply In_replace in He as [->|He].
      * destruct x as [n|m j]; exact Hx.
      * unfold separated in Ho. rewrite Forall_forall in Ho. now apply Ho.
    + pose proof (total_replace o k (plusOne (Own x)) E) as Ht.
      destruct x as [n|m j]; rewrite Hx; cbn [plusOne numeric] in *;
        [destruct n; cbn [Nat.eqb] in *|]; lia.
  - destruct (String.eqb_spec k "__proto__") as [->|Hne].
    + split; [exact Ho|]. change (isProtoMember "__proto__") with true.
      cbn iota. lia.
    + split.
      * apply Forall_forall. intros e He. apply In_set in He as [->|He].
        -- cbn [fst snd]. now destruct (isProtoMember k) eqn:Hk.
        -- unfold separated in Ho. rewrite Forall_forall in Ho. now apply Ho.
      * rewrite (@total_set_new _ _ _ E). now destruct (isProtoMember k).
Qed.

Lemma total_tally (l : list SurveyAnswer) :
  forall init,
    separated init ->
    total (tally init l) = total init + List.length (filter plain l).
Proof.
  induction l as [|a l IH]; intros init Hi; cbn [filter List.length];
    [now rewrite Nat.add_0_r|].
  destruct (total_increment (response a) Hi) as [Hs Ht].
  rewrite tally_cons, (IH _ Hs), Ht. unfold plain at 2.
  destruct (isProtoMember (response a)); cbn [negb List.length]; lia.
Qed.

Lemma total_toData (o : obj TallyValue) :
  list_sum (map (fun p => numeric (value p)) (toData o)) = total o.
Proof. unfold toData, entries, total. now rewrite map_map. Qed.

Lemma separated_seedRatings : separated seedRatings.
Proof. unfold separated. repeat constructor. Qed.

(** X7: for a text question the aggregate is the list of its answers'
    strings in the order of the responses.  For the other types the listed
    counts add up to the number of answers given to the question whose
    response names no member of [Object.prototype]: none of these answers
    is lost or counted twice, and an answer that names such a member adds
    to no count. *)
Theorem aggregate_counts_every_answer (rs : list SurveyResponseData) (q : Question) :
  exists a,
    aggregateQuestion rs q = Some a
    /\ match q_type q with
       | text => data a = []
                 /\ responses a = Some (map response (questionResponses rs q))
       | _ => list_sum (map (fun p => numeric (value p)) (data a))
              = List.length (filter plain (questionResponses rs q))
              /\ responses a = None
       end.
Proof.
  unfold aggregateQuestion. destruct (q_type q); eexists; (split; [reflexivity|]);
    cbn [data responses]; split; try reflexivity;
    rewrite total_toData, total_tally; try reflexivity;
    first [apply separated_seedRatings | constructor].
Qed.

Lemma aggregateQuestion_some (rs : list SurveyResponseData) (q : Question) :
  exists a, aggregateQuestion rs q = Some a.
Proof. unfold aggregateQuestion. destruct (q_type q); now eexists. Qed.

Lemma aggregateResponses_snoc (rs : list SurveyResponseData) (qs : list Question)
  (q : Question) :
  aggregateResponses rs (qs ++ [q]) =
    match aggregateQuestion rs q with
    | Some a => store (aggregateResponses rs qs) (q_id q) a
    | None => aggregateResponses rs qs
    end.
Proof. unfold aggregateResponses. now rewrite fold_left_app. Qed.

(** X8: the result of [aggregateResponses] holds, as own property under
    each question identifier other than "__proto__", the aggregate of the
    last question that bears it, and holds no other own property.  The
    aggregate of a question whose identifier is "__proto__" is stored under
    no key: it becomes the prototype of the result. *)
Theorem aggregateResponses_lookup (rs : list SurveyResponseData)
  (qs : list Question) :
  (forall k,
     get (own (aggregateResponses rs qs)) k =
       if String.eqb k "__proto__" then None
       else match find (fun q => String.eqb (q_id q) k) (rev qs) with
            | Some q => aggregateQuestion rs q
            | None => None
            end)
  /\ prototype (aggregateResponses rs qs) =
       match find (fun q => String.eqb (q_id q) "__proto__") (rev qs) with
       | Some q => aggregateQuestion rs q
       | None => None
       end.
Proof.
  induction qs as [|q qs [IHown IHproto]] using rev_ind;
    [split; [intros k; now destruct (String.eqb k "__proto__")|reflexivity]|].
  rewrite aggregateResponses_snoc, rev_app_distr. cbn [rev app find].
  destruct (aggregateQuestion_some rs q) as (a & Ha). rewrite Ha.
  unfold store. destruct (String.eqb_spec (q_id q) "__proto__") as [Hid|Hid].
  - cbn [own prototype]. split; [|symmetry; exact Ha].
    intros k. rewrite IHown, Hid.
    destruct (String.eqb_spec k "__proto__") as [->|Hk]; [reflexivity|].
    destruct (String.eqb_spec "__proto__" k); [congruence|reflexivity].
  - cbn [own prototype]. split; [|exact IHproto].
    intros k. rewrite get_set, IHown.
    destruct (String.eqb_spec (q_id q) k) as [<-|Hk]; [|reflexivity].
    destruct (String.eqb_spec (q_id q) "__proto__"); [contradiction|].
    now symmetry.
Qed.

End AggregatorTotals.

(** ** Ranges of the scores *)

Section ScoreRangeFacts.
Import JsString JsNumber Scoring ScoreRanges.
Local Open Scope bool_scope.

Lemma count_pos (n : nat) : n <> 0 -> (0 < count n)%Q.
Proof.
  intros H. unfold count. change (inject_Z 0 < inject_Z (Z.of_nat n))%Q.
  rewrite <- Zlt_Qlt. lia.
Qed.

Lemma count_le (a b : nat) : a <= b -> (count a <= count b)%Q.
Proof. intros H. unfold count. rewrite <- Zle_Qle. lia. Qed.

Lemma count_S (n : nat) : (count (S n) == count n + 1)%Q.
Proof.
  unfold count. rewrite Nat2Z.inj_succ, <- Z.add_1_r, inject_Z_plus. reflexivity.
Qed.

Lemma count_add (a b : nat) : (count (a + b) == count a + count b)%Q.
Proof. unfold count. now rewrite Nat2Z.inj_add, inject_Z_plus. Qed.

Lemma ratio_bounds (a n : nat) :
  a <= n -> n <> 0 -> (0 <= count a / count n <= 1)%Q.
Proof.
  intros Ha Hn. pose proof (count_pos Hn) as Hp. split.
  - apply Qle_shift_div_l; [exact Hp|]. rewrite Qmult_0_l.
    change (count 0 <= count a)%Q. apply count_le. lia.
  - apply Qle_shift_div_r; [exact Hp|]. rewrite Qmult_1_l. now apply count_le.
Qed.

Lemma collect_allAnswers (A : Type) (keep : SurveyAnswer -> bool)
  (conv : SurveyAnswer -> A) (rs : list SurveyResponseData) :
  collect keep conv rs = map conv (filter keep (allAnswers rs)).
Proof.
  unfold collect, allAnswers. induction rs as [|r rs IH]; [reflexivity|].
  cbn [flat_map]. now rewrite filter_app, map_app, IH.
Qed.

Lemma filter_disjoint_length (A : Type) (f g : A -> bool) (l : list A) :
  (forall x, f x && g x = false) ->
  List.length (filter f l) + List.length (filter g l) <= List.length l.
Proof.
  intros H. induction l as [|x l IH]; cbn [filter List.length]; [lia|].
  specialize (H x). destruct (f x), (g x); cbn [List.length]; try discriminate; lia.
Qed.

Lemma promoter_not_detractor (x : num) :
  geb x (ofZ 9) && JsNumber.leb x (ofZ 6) = false.
Proof.
  destruct x as [|q]; [reflexivity|]. cbn [geb JsNumber.leb ofZ].
  destruct (Qle_bool (inject_Z 9) q) eqn:H1; [|reflexivity].
  destruct (Qle_bool q (inject_Z 6)) eqn:H2; [|reflexivity].
  apply Qle_bool_iff in H1, H2. exfalso.
  assert (H : (inject_Z 9 <= inject_Z 6)%Q) by (eapply Qle_trans; eauto).
  rewrite <- Zle_Qle in H. lia.
Qed.

(** X10: the NPS score is always a number between -100 and 100, whatever the
    answers are. *)
Theorem nps_between_minus_100_and_100 (rs : list SurveyResponseData) :
  between (-100) 100 (nps rs).
Proof.
  unfold nps. set (scores := npsScores rs).
  destruct (Nat.eqb_spec (List.length scores) 0) as [_|Hn].
  - cbn. split; discriminate.
  - set (p := List.length (filter (fun score => geb score (ofZ 9)) scores)).
    set (d := List.length (filter (fun score => JsNumber.leb score (ofZ 6)) scores)).
    assert (Hpd : p + d <= List.length scores)
      by (apply filter_disjoint_length, promoter_not_detractor).
    unfold div, ofLength, ofZ.
    fold (count (List.length scores)) (count p) (count d).
    pose proof (count_pos Hn) as Hpos.
    destruct (Qeq_bool (count (List.length scores)) 0) eqn:E.
    { apply Qeq_bool_iff in E. rewrite E in Hpos. discriminate Hpos. }
    cbn [bindO lift2 mul sub between].
    pose proof (@ratio_bounds p (List.length scores)) as [Hp0 Hp1]; [lia|exact Hn|].
    pose proof (@ratio_bounds d (List.length scores)) as [Hd0 Hd1]; [lia|exact Hn|].
    change (inject_Z 100) with 100%Q. lra.
Qed.

Lemma filter_or_length (A : Type) (f g : A -> bool) (l : list A) :
  (forall x, f x && g x = false) ->
  List.length (filter (fun x => f x || g x) l)
  = List.length (filter f l) + List.length (filter g l).
Proof.
  intros H. induction l as [|x l IH]; cbn [filter List.length]; [reflexivity|].
  specialize (H x). destruct (f x), (g x); cbn [orb List.length]; try discriminate; lia.
Qed.

Lemma success_not_failure (a : SurveyAnswer) : saysSuccess a && saysFailure a = false.
Proof.
  unfold saysSuccess, saysFailure.
  destruct (String.eqb_spec (toLowerCase (response a)) "success") as [->|_];
    reflexivity.
Qed.

Lemma tsm_successes (l : list SurveyAnswer) :
  List.length
    (filter (fun score => eqb score (ofZ 1))
       (map (fun a => if saysSuccess a then ofZ 1 else ofZ 0)
            (filter (fun a => saysSuccess a || saysFailure a) l)))
  = List.length (filter saysSuccess l).
Proof.
  induction l as [|a l IH]; [reflexivity|]. cbn [filter].
  destruct (saysSuccess a) eqn:Hs; cbn [orb map filter].
  - rewrite Hs. cbn [filter List.length]. change (eqb (ofZ 1) (ofZ 1)) with true.
    cbn [List.length]. now rewrite IH.
  - destruct (saysFailure a); cbn [map filter]; [|exact IH].
    rewrite Hs. change (eqb (ofZ 0) (ofZ 1)) with false. exact IH.
Qed.

Lemma count_zero (n : nat) : (count n == 0)%Q <-> n = 0.
Proof.
  unfold count. change 0%Q with (inject_Z 0). rewrite inject_Z_injective. lia.
Qed.

Lemma count_same (n m : nat) : (count n == count m)%Q <-> n = m.
Proof. unfold count. rewrite inject_Z_injective. lia. Qed.

(** X11: the TSM score is always between 0 and 100.  It is 0 exactly when
    no answer reads "success" (in any letter case), in particular when no
    answer reads "success" or "failure" at all, and it is 100 exactly when
    some answer reads "success" and none reads "failure". *)
Theorem tsm_between_0_and_100 (rs : list SurveyResponseData) :
  exists q,
    tsm rs = Value (Fin q)
    /\ (0 <= q <= 100)%Q
    /\ ((q == 0)%Q <-> filter saysSuccess (allAnswers rs) = [])
    /\ ((q == 100)%Q <->
        filter saysSuccess (allAnswers rs) <> []
        /\ filter saysFailure (allAnswers rs) = []).
Proof.
  unfold tsm, tsmScores. rewrite collect_allAnswers.
  fold saysSuccess. fold saysFailure.
  change (fun a : SurveyAnswer =>
            String.eqb (toLowerCase (response a)) "success"
            || String.eqb (toLowerCase (response a)) "failure")
    with (fun a => saysSuccess a || saysFailure a).
  change (fun a : SurveyAnswer =>
            if String.eqb (toLowerCase (response a)) "success" then ofZ 1 else ofZ 0)
    with (fun a => if saysSuccess a then ofZ 1 else ofZ 0).
  rewrite tsm_successes, length_map, (filter_or_length _ _ _ success_not_failure).
  repeat setoid_rewrite <- length_zero_iff_nil.
  set (s := List.length (filter saysSuccess (allAnswers rs))).
  set (f := List.length (filter saysFailure (allAnswers rs))).
  destruct (Nat.eqb_spec (s + f) 0) as [E|Hn].
  - exists 0%Q. split; [reflexivity|]. split; [split; discriminate|]. split.
    + split; [lia|reflexivity].
    + split; [intros H; discriminate H|lia].
  - pose proof (count_pos Hn) as Hpos.
    unfold div, ofLength, ofZ. fold (count (s + f)) (count s).
    destruct (Qeq_bool (count (s + f)) 0) eqn:E.
    { apply Qeq_bool_iff in E. rewrite E in Hpos. discriminate Hpos. }
    cbn [bindO lift2 mul]. eexists. split; [reflexivity|].
    destruct (@ratio_bounds s (s + f)) as [H0 H1]; [lia|exact Hn|].
    change (inject_Z 100) with 100%Q. split; [lra|].
    assert (Hshare : (count s / count (s + f) * 100 * count (s + f)
                      == 100 * count s)%Q).
    { field. intros H. rewrite H in Hpos. discriminate Hpos. }
    set (q := (count s / count (s + f) * 100)%Q) in *.
    split.
    + split.
      * intros Hq. rewrite Hq in Hshare. apply count_zero. lra.
      * intros Hs. apply count_zero in Hs. rewrite Hs in Hshare.
        destruct (Qmult_integral _ _ (Qeq_trans _ _ _ Hshare (Qmult_0_r 100)))
          as [Hq|Hc]; [exact Hq|]. rewrite Hc in Hpos. discriminate Hpos.
    + split.
      * intros Hq. rewrite Hq in Hshare.
        assert (Hsame : (count (s + f) == count s)%Q) by lra.
        apply count_same in Hsame. lia.
      * intros [Hs Hf]. replace (s + f) with s in * by lia.
        assert (Hdiff : ((q - 100) * count s == 0)%Q) by (rewrite <- (Qplus_opp_r (100 * count s)); rewrite <- Hshare at 1; ring).
        destruct (Qmult_integral _ _ Hdiff) as [Hq|Hc]; [lra|].
        rewrite Hc in Hpos. discriminate Hpos.
Qed.

Lemma fold_add_bounds (lo hi : Q) (l : list num) :
  Forall (within lo hi) l ->
  forall acc, exists q,
    fold_left add l (Fin acc) = Fin q
    /\ (acc + lo * count (List.length l) <= q
        <= acc + hi * count (List.length l))%Q.
Proof.
  induction 1 as [|x l Hx _ IH]; intros acc.
  - exists acc. split; [reflexivity|]. cbn [List.length].
    change (count 0) with 0%Q. lra.
  - destruct x as [|v]; [contradiction|]. cbn [within] in Hx.
    cbn [fold_left add lift2]. destruct (IH (acc + v)%Q) as (q & Hq & Hb).
    exists q. split; [exact Hq|]. cbn [List.length]. rewrite count_S. lra.
Qed.

(** The average of a non-empty list of numbers that lie in a range lies in
    that range. *)
Lemma average_bounds (lo hi : Q) (l : list num) :
  l <> [] -> Forall (within lo hi) l ->
  exists q, div (sum l) (ofLength (List.length l)) = Value (Fin q)
            /\ (lo <= q <= hi)%Q.
Proof.
  intros Hne Hl. assert (Hn : List.length l <> 0) by (destruct l; easy).
  pose proof (count_pos Hn) as Hpos.
  destruct (fold_add_bounds Hl 0) as (q & Hq & Hb).
  unfold sum, ofZ. change (inject_Z 0) with 0%Q. rewrite Hq.
  unfold div, ofLength, ofZ. fold (count (List.length l)).
  destruct (Qeq_bool (count (List.length l)) 0) eqn:E.
  { apply Qeq_bool_iff in E. rewrite E in Hpos. discriminate Hpos. }
  cbn [lift2]. eexists. split; [reflexivity|]. split.
  - apply Qle_shift_div_l; [exact Hpos|]. lra.
  - apply Qle_shift_div_r; [exact Hpos|]. lra.
Qed.

Lemma filter_all (A : Type) (f : A -> bool) (l : list A) :
  Forall (fun x => f x = true) l -> filter f l = l.
Proof.
  induction 1 as [|x l Hx _ IH]; cbn [filter]; [reflexivity|]. now rewrite Hx, IH.
Qed.

Lemma oneToSeven_parse (a : SurveyAnswer) :
  oneToSeven a ->
  inRange "1" "7" a = true /\ within 1 7 (parseInt (response a)).
Proof.
  unfold oneToSeven, inRange. cbn [In].
  intros H. repeat (destruct H as [<-|H]; [split; [reflexivity|split; discriminate]|]).
  contradiction.
Qed.

Lemma oneToFive_parse (a : SurveyAnswer) :
  oneToFive a ->
  inRange "1" "5" a = true /\ within 1 5 (parseInt (response a)).
Proof.
  unfold oneToFive, inRange. cbn [In].
  intros H. repeat (destruct H as [<-|H]; [split; [reflexivity|split; discriminate]|]).
  contradiction.
Qed.

(** X12: when every answer is one of "1" to "5" and there is at least one,
    the CSAT score is a number between 20 and 100. *)
Theorem csat_between_20_and_100 (rs : list SurveyResponseData) :
  Forall oneToFive (allAnswers rs) -> allAnswers rs <> [] ->
  between 20 100 (csat rs).
Proof.
  intros Hall Hne. unfold csat, csatScores. rewrite collect_allAnswers.
  rewrite filter_all
    by (eapply Forall_impl; [|exact Hall]; intros a Ha; now apply oneToFive_parse).
  set (scores := map (fun a => parseInt (response a)) (allAnswers rs)).
  assert (Hs : scores <> []) by (unfold scores; destruct (allAnswers rs); easy).
  assert (Hw : Forall (within 1 5) scores).
  { unfold scores. apply Forall_map. eapply Forall_impl; [|exact Hall].
    intros a Ha. now apply oneToFive_parse. }
  destruct (Nat.eqb_spec (List.length scores) 0) as [E|_];
    [destruct scores; easy|].
  destruct (average_bounds Hs Hw) as (q & -> & Hq).
  cbn [bindO mul lift2 ofZ between]. change (inject_Z 20) with 20%Q. lra.
Qed.

Lemma csat_between_20_and_100_witness :
  between 20 100 (csat (ofValues ["5"; "5"; "4"]%string)).
Proof.
  apply csat_between_20_and_100.
  - repeat constructor; unfold oneToFive; cbn; tauto.
  - discriminate.
Defined.

(** X13: when every answer is one of "1" to "7" and there is at least one,
    the CES score is a number between 1 and 7. *)
Theorem ces_between_1_and_7 (rs : list SurveyResponseData) :
  Forall oneToSeven (allAnswers rs) -> allAnswers rs <> [] ->
  between 1 7 (ces rs).
Proof.
  intros Hall Hne. unfold ces, cesScores. rewrite collect_allAnswers.
  rewrite filter_all
    by (eapply Forall_impl; [|exact Hall]; intros a Ha; now apply oneToSeven_parse).
  set (scores := map (fun a => parseInt (response a)) (allAnswers rs)).
  assert (Hs : scores <> []) by (unfold scores; destruct (allAnswers rs); easy).
  assert (Hw : Forall (within 1 7) scores).
  { unfold scores. apply Forall_map. eapply Forall_impl; [|exact Hall].
    intros a Ha. now apply oneToSeven_parse. }
  destruct (Nat.ltb_spec 0 (List.length scores)) as [_|E];
    [|destruct scores; cbn in E; [easy|lia]].
  destruct (average_bounds Hs Hw) as (q & -> & Hq). exact Hq.
Qed.

Lemma ces_between_1_and_7_witness :
  between 1 7 (ces (ofValues ["7"; "2"; "6"]%string)).
Proof.
  apply ces_between_1_and_7.
  - repeat constructor; unfold oneToSeven; cbn; tauto.
  - discriminate.
Defined.

Lemma susTotal_bounds (l : list SurveyAnswer) :
  Forall oneToFive l ->
  forall index acc, exists q,
    susTotal l index (Fin acc) = Fin q
    /\ (acc <= q <= acc + 4 * count (List.length l))%Q.
Proof.
  induction 1 as [|a l Ha _ IH]; intros index acc.
  - exists acc. split; [reflexivity|]. cbn [List.length].
    change (count 0) with 0%Q. lra.
  - destruct (oneToFive_parse Ha) as [_ Hw]. cbn [susTotal].
    destruct (parseInt (response a)) as [|v]; [contradiction|]. cbn [within] in Hw.
    destruct (Nat.eqb (index mod 2) 0); cbn [add sub lift2 ofZ];
      match goal with
      | |- context [susTotal l (S index) (Fin ?x)] =>
          destruct (IH (S index) x) as (q & Hq & Hb)
      end; exists q; (split; [exact Hq|]);
      change (inject_Z 1) with 1%Q in Hb; change (inject_Z 5) with 5%Q in Hb;
      cbn [List.length]; rewrite count_S; lra.
Qed.

(** X14: when every response has exactly ten answers, each one of "1" to
    "5", the SUS score is a number between 0 and 100. *)
Theorem sus_between_0_and_100 (rs : list SurveyResponseData) :
  Forall (fun r => List.length (answers r) = 10 /\ Forall oneToFive (answers r)) rs ->
  between 0 100 (sus rs).
Proof.
  intros Hall. unfold sus.
  assert (Hw : Forall (within 0 40) (susScores rs)).
  { unfold susScores. apply Forall_map. eapply Forall_impl; [|exact Hall].
    intros r [Hlen Hr]. destruct (susTotal_bounds Hr 0 0) as (q & Hq & Hb).
    unfold ofZ. change (inject_Z 0) with 0%Q. rewrite Hq, Hlen in *.
    change (count 10) with 10%Q in Hb. cbn [within]. lra. }
  destruct (Nat.eqb_spec (List.length (susScores rs)) 0) as [_|Hn].
  - cbn. split; discriminate.
  - assert (Hs : susScores rs <> []) by (destruct (susScores rs); easy).
    destruct (average_bounds Hs Hw) as (q & -> & Hq).
    cbn [bindO mul lift2 between]. lra.
Qed.

Lemma sus_between_0_and_100_witness :
  between 0 100
    (sus [{| r_id := "r1"; created_at := "";
             answers := map (fun v => {| question_id := "q"; response := v |})
                            ["5"; "1"; "4"; "2"; "5"; "1"; "3"; "2"; "4"; "1"]%string |}]).
Proof.
  apply sus_between_0_and_100.
  apply Forall_cons; [|apply Forall_nil]. split; [reflexivity|].
  cbn [answers map].
  repeat (apply Forall_cons; [unfold oneToFive; cbn [response In]; auto 10|]).
  apply Forall_nil.
Defined.

(** X15: a range filter whose bounds are one character each looks at the
    first character of the answer only: the answer passes when that
    character lies from the lower bound up to just below the upper bound,
    whatever follows it, or when the answer is the upper bound itself. *)
Theorem one_character_range_filter (lo hi : ascii) (a : SurveyAnswer) :
  inRange (String lo "") (String hi "") a =
    match response a with
    | EmptyString => false
    | String c r =>
        Ascii.leb lo c && (Ascii.ltb c hi || (Ascii.eqb c hi && String.eqb r ""))
    end.
Proof.
  unfold inRange, ge, JsString.le, String.leb, Ascii.leb, Ascii.ltb.
  destruct (response a) as [|c r]; [reflexivity|]. cbn [String.compare].
  f_equal.
  - destruct (Ascii.compare lo c); destruct r; reflexivity.
  - destruct (Ascii.eqb_spec c hi) as [->|Hne].
    + unfold Ascii.compare. rewrite N.compare_refl. destruct r; reflexivity.
    + destruct (Ascii.compare c hi) eqn:E; try reflexivity.
      now apply Ascii.compare_eq_iff in E.
Qed.

End ScoreRangeFacts.

(** ** Submissions *)

Section SubmissionFacts.
Import JsString Parser JsNumber JsObject Scoring Persistence.
Local Open Scope bool_scope.

Lemma after_changes_NoDup (V : Type) (changes : list (string * V)) :
  NoDup (map fst (fold_left (fun acc c => set acc (fst c) (snd c)) changes [])).
Proof.
  induction changes as [|c changes IH] using rev_ind; [constructor|].
  rewrite fold_left_app. cbn [fold_left]. now apply set_NoDup.
Qed.

Lemma find_formattedAnswers (o : obj string) (k : string) :
  option_map response
    (find (fun a => String.eqb (question_id a) k) (RespondToSurvey.formattedAnswers o))
  = get o k.
Proof.
  unfold RespondToSurvey.formattedAnswers, entries.
  induction o as [|[k0 v0] o IH]; cbn [map find get fst snd question_id]; [reflexivity|].
  destruct (String.eqb k0 k); [reflexivity|exact IH].
Qed.

(** X17: a submission from the respond page holds one answer for each
    question the respondent answered, with the value entered last, and no
    answer for a question that was never answered. *)
Theorem respond_submission_holds_last_values (surveyId now : string)
  (changes : list (string * string)) :
  exists sub,
    RespondToSurvey.handleSubmit (Some surveyId)
      (RespondToSurvey.afterChanges changes) now = Some sub
    /\ RespondToSurvey.sub_survey_id sub = surveyId
    /\ NoDup (map question_id (RespondToSurvey.sub_answers sub))
    /\ forall questionId,
         option_map response
           (find (fun a => String.eqb (question_id a) questionId)
                 (RespondToSurvey.sub_answers sub))
         = RespondToSurvey.lastEntered changes questionId.
Proof.
  eexists. split; [reflexivity|]. cbn [RespondToSurvey.sub_survey_id
                                        RespondToSurvey.sub_answers].
  split; [reflexivity|]. split.
  - unfold RespondToSurvey.formattedAnswers, entries. rewrite map_map. cbn [question_id].
    apply (after_changes_NoDup changes).
  - intros questionId. rewrite find_formattedAnswers.
    apply (get_after_changes changes).
Qed.

(** X18: a submission from the TakeSurvey page stores, for each question
    in order, the value entered last for it, with the empty string in place
    of zero and NaN; for a question never answered it stores the empty
    string, or the inherited member when the question's id names a member
    of [Object.prototype]. *)
Theorem take_submission_holds_last_values (survey : TakeSurvey.Survey)
  (changes : list (string * AnswerValue)) (uuid now : string) :
  TakeSurvey.handleSubmit (Some survey) (TakeSurvey.afterChanges changes) uuid now
  = [InsertResponse
       {| resp_id := uuid;
          resp_survey_id := TakeSurvey.s_id survey;
          resp_answers :=
            map (fun q =>
                   {| a_question_id := q_id q;
                      a_response :=
                        match RespondToSurvey.lastEntered changes (q_id q) with
                        | Some (AStr s) => AStr s
                        | Some (ANum (Fin x)) =>
                            if Qeq_bool x 0 then AStr "" else ANum (Fin x)
                        | Some (ANum NaN) => AStr ""
                        | Some (AMember member) => AMember member
                        | None =>
                            if isProtoMember (q_id q) then AMember (q_id q)
                            else AStr ""
                        end |})
                (TakeSurvey.s_questions survey);
          resp_created_at := now |}].
Proof.
  unfold TakeSurvey.handleSubmit, TakeSurvey.formatAnswers. do 3 f_equal.
  apply map_ext. intros q. f_equal. apply orEmpty_read_after_changes.
Qed.

End SubmissionFacts.

(** ** Cleaning of the generated content *)

Section FenceFacts.
Import JsString GenerateSurvey.
Local Open Scope string_scope.
Local Open Scope bool_scope.

Lemma length_append (a b : string) :
  String.length (a ++ b) = String.length a + String.length b.
Proof. induction a as [|c a IH]; cbn; [reflexivity|now rewrite IH]. Qed.

Lemma stripPrefix_append (p r : string) : stripPrefix p (p ++ r) = Some r.
Proof.
  induction p as [|a p IH]; cbn [append stripPrefix]; [reflexivity|].
  now rewrite Ascii.eqb_refl.
Qed.

Lemma stripPrefix_startsWith (p s : string) :
  startsWith s p = false -> stripPrefix p s = None.
Proof.
  revert s. induction p as [|a p IH]; intros [|c s]; cbn [startsWith stripPrefix];
    try easy.
  destruct (Ascii.eqb a c); cbn [andb]; [apply IH|reflexivity].
Qed.

Lemma replaceFenceClose_fenced (b : string) :
  replaceFenceClose (b ++ String LF fence) = b.
Proof.
  induction b as [|c b IH]; [reflexivity|].
  cbn [append replaceFenceClose]. rewrite IH.
  destruct (String.eqb_spec (String c (b ++ String LF fence)) (String LF fence)) as [E|_].
  { apply (f_equal String.length) in E. cbn [String.length] in E.
    rewrite length_append in E. cbn [String.length] in E. lia. }
  destruct (String.eqb_spec (String c (b ++ String LF fence)) fence) as [E|_].
  { apply (f_equal String.length) in E. cbn [String.length] in E.
    rewrite length_append in E. cbn in E. lia. }
  reflexivity.
Qed.

Lemma replaceFenceClose_unfenced (c : string) :
  (forall p, c <> p ++ fence) -> replaceFenceClose c = c.
Proof.
  induction c as [|x c IH]; intros H; [reflexivity|]. cbn [replaceFenceClose].
  destruct (String.eqb_spec (String x c) (String LF fence)) as [E|_].
  { exfalso. apply (H (String LF "")). exact E. }
  destruct (String.eqb_spec (String x c) fence) as [E|_].
  { exfalso. apply (H ""). exact E. }
  cbn [orb]. f_equal. apply IH. intros p E. apply (H (String x p)).
  cbn [append]. now rewrite E.
Qed.

(** X19: content wrapped in a json code fence cleans to the trimmed body,
    whatever the body is; content that neither starts with the opening
    fence nor ends with the closing one is only trimmed. *)
Theorem fenced_content_cleans_to_body :
  (forall body,
     cleanContent (fence ++ "json" ++ String LF (body ++ String LF fence)) = trim body)
  /\ (forall content,
        startsWith content (fence ++ "json") = false ->
        (forall p, content <> p ++ fence) ->
        cleanContent content = trim content).
Proof.
  split.
  - intros body. unfold cleanContent, replaceFenceOpen.
    change (fence ++ "json" ++ String LF (body ++ String LF fence))
      with ((fence ++ "json") ++ String LF (body ++ String LF fence)).
    rewrite stripPrefix_append, Ascii.eqb_refl.
    now rewrite replaceFenceClose_fenced.
  - intros content Hopen Hclose. unfold cleanContent, replaceFenceOpen.
    rewrite (stripPrefix_startsWith _ _ Hopen).
    now rewrite replaceFenceClose_unfenced.
Qed.

Lemma fenced_content_cleans_to_body_witness :
  cleanContent "{ }" = "{ }".
Proof.
  destruct fenced_content_cleans_to_body as [_ H].
  rewrite (H "{ }"); [reflexivity|reflexivity|].
  intros p E. pose proof (f_equal String.length E) as L.
  rewrite length_append in L. destruct p as [|x p]; [discriminate E|].
  cbn in L. lia.
Defined.

End FenceFacts.

(** ** Step navigation *)

Section NavigationFacts.
Import JsString Parser Navigation.
Local Open Scope bool_scope.


End NavigationFacts.

(** ** Labelling of answers for the synthesis *)

Section SynthesizeFacts.
Import JsString Parser ParserShapes Scoring Synthesize.
Local Open Scope bool_scope.

Lemma find_by_id (qs : list Question) (q : Question) :
  NoDup (map q_id qs) -> In q qs ->
  find (fun x => String.eqb (q_id x) (q_id q)) qs = Some q.
Proof.
  induction qs as [|x qs IH]; cbn [map In find]; [easy|].
  intros Hnd [->|Hin].
  - now rewrite String.eqb_refl.
  - inversion Hnd as [|? ? Hx Hrest]; subst.
    destruct (String.eqb_spec (q_id x) (q_id q)) as [E|_]; [|now apply IH].
    exfalso. apply Hx. rewrite E. now apply in_map.
Qed.

Lemma find_dangling (qs : list Question) (k : string) :
  ~ In k (map q_id qs) -> find (fun x => String.eqb (q_id x) k) qs = None.
Proof.
  induction qs as [|x qs IH]; cbn [map In find]; [easy|].
  intros H. destruct (String.eqb_spec (q_id x) k) as [E|_]; [tauto|].
  apply IH. tauto.
Qed.

Lemma parsed_survey_shape (input : string) :
  exists s,
    convertTextToSurvey input = Ok s
    /\ NoDup (map q_id (questions s)) /\ Forall wellFormed (questions s).
Proof.
  destruct (convert_shape input) as (st & Hst & Hs).
  eexists. split; [exact Hs|]. cbn [questions].
  destruct (@scan_invariant (fun x => idInvariant x /\ shapeInvariant x)
              (skipn 2 (nonBlankLines input))) with (st := initialState)
    as (st' & Hst' & Hid & Hshape).
  { intros a raw b [H1 H2] Hstep. split.
    - eapply step_idInvariant; eauto.
    - eapply step_shapeInvariant; eauto. }
  { split; (split; [constructor|]); intros q Hq; discriminate Hq. }
  rewrite Hst in Hst'. injection Hst' as <-.
  pose proof (flush_sequential Hid) as Hseq.
  pose proof (flush_wellFormed Hshape) as Hwf.
  destruct (flush st) as [|q0 qs].
  - split; [apply sequentialIds_NoDup; reflexivity|].
    constructor; [|constructor]. split; reflexivity.
  - split; [now apply sequentialIds_NoDup|exact Hwf].
Qed.

(** X21: for a survey produced by the parser, an answer that refers to one
    of its questions is handed to the synthesis with that question's own
    text and type, never as "Unknown Question"; an answer that refers to no
    question is labelled "Unknown Question" with type text, for any list of
    questions. *)
Theorem parsed_survey_answers_are_labelled :
  (forall input,
     exists s,
       convertTextToSurvey input = Ok s
       /\ forall q a,
            In q (questions s) -> question_id a = q_id q ->
            structureAnswer (questions s) a =
              {| sa_question := q_text q; sa_response := response a;
                 sa_type := q_type q |})
  /\ (forall qs a,
        ~ In (question_id a) (map q_id qs) ->
        structureAnswer qs a =
          {| sa_question := "Unknown Question"; sa_response := response a;
             sa_type := text |}).
Proof.
  split.
  - intros input. destruct (parsed_survey_shape input) as (s & Hs & Hnd & Hwf).
    exists s. split; [exact Hs|]. intros q a Hin Hid.
    unfold structureAnswer. rewrite Hid, (@find_by_id _ _ Hnd Hin).
    rewrite Forall_forall in Hwf. destruct (Hwf q Hin) as [Ht _]. now rewrite Ht.
  - intros qs a H. unfold structureAnswer. now rewrite (find_dangling _ _ H).
Qed.

Lemma parsed_survey_answers_are_labelled_witness :
  exists s,
    convertTextToSurvey sampleInput = Ok s
    /\ structureAnswer (questions s) {| question_id := "q2"; response := "a" |} =
         {| sa_question := "Rate our service"; sa_response := "a";
            sa_type := multiple_choice |}.
Proof.
  destruct (proj1 parsed_survey_answers_are_labelled sampleInput) as (s & Hs & H).
  exists s. split; [exact Hs|].
  assert (E : questions s =
              [{| q_id := "q1"; q_text := "What is your name?"; q_type := text;
                  q_options := None |};
               {| q_id := "q2"; q_text := "Rate our service";
                  q_type := multiple_choice; q_options := Some ["a"; "b"]%string |}]).
  { vm_compute in Hs. injection Hs as <-. reflexivity. }
  apply (H {| q_id := "q2"; q_text := "Rate our service";
              q_type := multiple_choice; q_options := Some ["a"; "b"]%string |}
           {| question_id := "q2"; response := "a" |}); [|reflexivity].
  rewrite E. right. left. reflexivity.
Defined.

End SynthesizeFacts.


(** ** Order of the labels in a tally *)

Section EntryOrderFacts.
Import JsString Parser Scoring JsObject Aggregator EntryOrder.
Local Open Scope bool_scope.

Lemma orderedFrom_insertIndex (V : Type) (n : N) (k : string) (v : V) (o : obj V) :
  arrayIndex k = Some n -> ~ In k (map fst o) ->
  forall lower, above lower n ->
    orderedFrom lower (map fst o) ->
    orderedFrom lower (map fst (insertIndex n k v o)).
Proof.
  intros Hk. induction o as [|[k' v'] o IH]; intros Hout lower Hlow Ho.
  - cbn [insertIndex map fst orderedFrom]. rewrite Hk. now split.
  - cbn [map fst In] in Hout. cbn [insertIndex]. cbn [map fst orderedFrom] in Ho.
    destruct (arrayIndex k') as [n'|] eqn:Hk'.
    + destruct Ho as [Hl Ho]. destruct (N.ltb_spec n' n) as [Hlt|Hge].
      * cbn [map fst orderedFrom]. rewrite Hk'. split; [exact Hl|].
        apply IH; [tauto|exact Hlt|exact Ho].
      * cbn [map fst orderedFrom]. rewrite Hk, Hk'. split; [exact Hlow|].
        split; [|exact Ho].
        assert (n <> n').
        { intros ->. apply Hout. left.
          apply arrayIndex_canonical in Hk, Hk'. congruence. }
        lia.
    + cbn [map fst orderedFrom]. rewrite Hk, Hk'. split; [exact Hlow|exact Ho].
Qed.

Lemma orderedFrom_snoc (k : string) (labels : list string) :
  arrayIndex k = None ->
  forall lower, orderedFrom lower labels -> orderedFrom lower (labels ++ [k]).
Proof.
  intros Hk. induction labels as [|x labels IH]; intros lower Ho.
  - cbn [app orderedFrom]. rewrite Hk. constructor.
  - cbn [app orderedFrom] in *. destruct (arrayIndex x).
    + destruct Ho as [Hl Ho]. split; [exact Hl|now apply IH].
    + apply Forall_app. split; [exact Ho|]. now constructor.
Qed.

Lemma set_indexLabelsFirst (V : Type) (o : obj V) (k : string) (v : V) :
  indexLabelsFirst (map fst o) -> indexLabelsFirst (map fst (set o k v)).
Proof.
  unfold indexLabelsFirst, set. intros Ho. destruct (get o k) as [x|] eqn:E.
  - now rewrite keys_replace.
  - apply get_None_keys in E. destruct (arrayIndex k) as [n|] eqn:Hk.
    + now apply orderedFrom_insertIndex.
    + rewrite map_app. now apply orderedFrom_snoc.
Qed.

Lemma tally_indexLabelsFirst (l : list SurveyAnswer) :
  forall init, indexLabelsFirst (map fst init) ->
               indexLabelsFirst (map fst (tally init l)).
Proof.
  induction l as [|a l IH]; intros init H; [exact H|].
  rewrite tally_cons. apply IH.
  destruct (increment_cases init (response a)) as [->|[v ->]]; [exact H|].
  now apply set_indexLabelsFirst.
Qed.

(** X9: in the output for any question, the labels that are array indices
    (canonical decimal integers such as 0, 3 or 10) are listed first, in
    strictly ascending numeric order, and every other label comes after
    them. *)
Theorem tally_lists_index_labels_first (rs : list SurveyResponseData) (q : Question) :
  exists a,
    aggregateQuestion rs q = Some a /\ indexLabelsFirst (map name (data a)).
Proof.
  unfold aggregateQuestion. destruct (q_type q); eexists; (split; [reflexivity|]);
    cbn [data]; try rewrite names_toData; try apply tally_indexLabelsFirst;
    try exact I.
  unfold indexLabelsFirst.
  change (map fst seedRatings) with ratingLabels. unfold ratingLabels.
  cbn. repeat split; lia.
Qed.

End EntryOrderFacts.
